(** * Hii Aimouse custom driver: a shallow embedding of [ai_mouse.py]

    The development follows the layout of the Python module:

    - [Py]: the fragment of Python values and dynamic operations the module
      relies on (JSON documents, [dict.get], subscripting, [in], [int]);
    - the module constants and globals ([DEFAULT_PROFILE], [GLOBAL_CONFIG],
      [ACTIVE_SETTINGS], [current_speed_mode], [MIC_IS_HELD]);
    - the backend ([set_mouse_speed], [load_config], [save_config]);
    - the action dispatcher ([toggle_dpi], [execute_button_press], ...);
    - the HID listener ([monitor_mouse]) as a loop over a finite prefix of
      the reads it performs;
    - the settings window ([ButtonConfigRow], [MouseApp]).

    Modelling choices:

    - A function that can raise returns an [outcome]; a function that
      cannot returns its result directly.
    - Effects on the outside world (console, operating system, threads,
      the key-emulation backend, message boxes) are recorded in a log
      carried by the globals.  The body of the recording thread and the
      widgets of the window are not modelled: starting the thread is an
      effect, and of the window only the Tk variables are kept.
    - Dictionaries are finite maps with string keys.  No dictionary of the
      program is mutated while a second reference to it is in use, so
      values stand for the objects.
    - The config file is kept as the JSON document it holds. *)

From stdpp Require Import gmap strings list fin_maps.
From Stdlib Require Import ZArith Lia.

#[local] Set Warnings "-register-all".
#[local] Open Scope Z_scope.

(** ** The Python fragment *)

Module Py.

(** Values that [json.load] produces and [json.dump] accepts.  Objects are
    dictionaries with string keys; the order of their fields is not
    observable in this model.  Floating-point numbers are left out. *)
Inductive json : Type :=
| JNull
| JBool (b : bool)
| JInt (z : Z)
| JStr (s : string)
| JList (l : list json)
| JObj (o : gmap string json).

Inductive exn : Type :=
| TypeError | AttributeError | KeyError | ValueError | TclError.

(** The result of running a piece of the program.  [Unmodelled] marks the
    few places where Python goes on with a value that is not a JSON
    document of the shape above (a dictionary key that is not a string, an
    integer index into a list or a string, the text of a number). *)
Inductive outcome (A : Type) : Type :=
| Returns (a : A)
| Raises (e : exn)
| Unmodelled.
Arguments Returns {A} a.
Arguments Raises {A} e.
Arguments Unmodelled {A}.

#[global] Instance outcome_ret : MRet outcome := λ A a, Returns a.
#[global] Instance outcome_bind : MBind outcome := λ A B f m,
  match m with
  | Returns a => f a
  | Raises e => Raises e
  | Unmodelled => Unmodelled
  end.

#[global] Instance outcome_fmap : FMap outcome := λ A B f m,
  match m with
  | Returns a => Returns (f a)
  | Raises e => Raises e
  | Unmodelled => Unmodelled
  end.

(** [v.get(k, dflt)]: only dictionaries have the method. *)
Definition get (v : json) (k : string) (dflt : json) : outcome json :=
  match v with
  | JObj o => Returns (default dflt (o !! k))
  | _ => Raises AttributeError
  end.

(** [v == "literal"] *)
Definition eq_str (v : json) (lit : string) : bool :=
  match v with
  | JStr s => bool_decide (s = lit)
  | _ => false
  end.

(** [t in s] for two strings. *)
Definition str_contains (t s : string) : bool :=
  bool_decide (is_Some (String.index 0 t s)).

(** [item in container] *)
Definition contains (container item : json) : outcome bool :=
  match container with
  | JObj o =>
      match item with
      | JStr s => Returns (bool_decide (is_Some (o !! s)))
      | JNull | JBool _ | JInt _ => Returns false
      | JList _ | JObj _ => Raises TypeError
      end
  | JList l =>
      match item with
      | JStr s => Returns (existsb (λ v, eq_str v s) l)
      | _ => Unmodelled
      end
  | JStr s =>
      match item with
      | JStr t => Returns (str_contains t s)
      | _ => Raises TypeError
      end
  | JNull | JBool _ | JInt _ => Raises TypeError
  end.

(** [container[key]] *)
Definition getitem (container key : json) : outcome json :=
  match container with
  | JObj o =>
      match key with
      | JStr s =>
          match o !! s with
          | Some v => Returns v
          | None => Raises KeyError
          end
      | JNull | JBool _ | JInt _ => Raises KeyError
      | JList _ | JObj _ => Raises TypeError
      end
  | JList _ | JStr _ =>
      match key with
      | JBool _ | JInt _ => Unmodelled
      | _ => Raises TypeError
      end
  | JNull | JBool _ | JInt _ => Raises TypeError
  end.

(** [container[key] = v], returning the updated container. *)
Definition setitem (container key v : json) : outcome json :=
  match container with
  | JObj o =>
      match key with
      | JStr s => Returns (JObj (<[s := v]> o))
      | JNull | JBool _ | JInt _ => Unmodelled
      | JList _ | JObj _ => Raises TypeError
      end
  | JList _ =>
      match key with
      | JBool _ | JInt _ => Unmodelled
      | _ => Raises TypeError
      end
  | JStr _ | JNull | JBool _ | JInt _ => Raises TypeError
  end.

(** [del container[key]], returning the updated container. *)
Definition delitem (container key : json) : outcome json :=
  match container with
  | JObj o =>
      match key with
      | JStr s =>
          match o !! s with
          | Some _ => Returns (JObj (delete s o))
          | None => Raises KeyError
          end
      | JNull | JBool _ | JInt _ => Raises KeyError
      | JList _ | JObj _ => Raises TypeError
      end
  | JList _ =>
      match key with
      | JBool _ | JInt _ => Unmodelled
      | _ => Raises TypeError
      end
  | JStr _ | JNull | JBool _ | JInt _ => Raises TypeError
  end.

(** [if v:] *)
Definition truthy (v : json) : bool :=
  match v with
  | JNull => false
  | JBool b => b
  | JInt z => negb (z =? 0)
  | JStr s => negb (bool_decide (s = ""))
  | JList l => negb (bool_decide (l = []))
  | JObj o => negb (bool_decide (o = ∅))
  end.

(** [int(v)] *)
Definition int (v : json) : outcome Z :=
  match v with
  | JInt z => Returns z
  | JBool b => Returns (Z.b2z b)
  | JStr _ => Unmodelled
  | JNull | JList _ | JObj _ => Raises TypeError
  end.

End Py.
Import Py.

Coercion JStr : string >-> json.

(** ** Module constants *)

Definition CONFIG_FILE : string := "config.json".

Definition button_config (action param : string) : json :=
  JObj (<["action" := JStr action]> (<["param" := JStr param]> ∅)).

Definition DEFAULT_PROFILE : gmap string json :=
  <["mic" := button_config "voice_typing" ""]>
  (<["search" := button_config "open_url" "https://www.google.com"]>
  (<["side" := button_config "key_press" "alt+left"]>
  (<["dpi_fast" := JInt 18]>
  (<["dpi_normal" := JInt 10]> ∅)))).

Definition ACTION_MAP_DISPLAY : gmap string string :=
  <["🗣️ 按住說話 (語音輸入)" := "voice_typing"]>
  (<["🔗 開啟網頁 (URL)" := "open_url"]>
  (<["⌨️ 模擬按鍵 (快捷鍵)" := "key_press"]>
  (<["🖱️ 切換 DPI (速度)" := "toggle_dpi"]> ∅))).

Definition ACTION_MAP_INTERNAL : gmap string string :=
  <["voice_typing" := "🗣️ 按住說話 (語音輸入)"]>
  (<["open_url" := "🔗 開啟網頁 (URL)"]>
  (<["key_press" := "⌨️ 模擬按鍵 (快捷鍵)"]>
  (<["toggle_dpi" := "🖱️ 切換 DPI (速度)"]> ∅))).

(** ** Global state *)

(** What the program does to the outside world, in the order it does it. *)
Inductive effect : Type :=
| Print (msg : string)
| SystemParametersInfo (speed : Z)   (* SPI_SETMOUSESPEED with this speed *)
| RecordThread                       (* Thread(target=_record_task).start() *)
| BrowserThread (url : json)         (* Thread(target=webbrowser.open(url)) *)
| KeyboardSend (keys : json)         (* keyboard.send(keys) *)
| ShowError (title msg : string).    (* messagebox.showerror *)

(** The content of [CONFIG_FILE] on disk.  [json.dump] followed by
    [json.load] gives back the document that was written, so the file is
    kept as the document itself; [Garbled] is a file that [json.load]
    rejects. *)
Inductive file_content : Type :=
| Absent
| Garbled
| Document (data : json).

(** The optional [keyboard] module: whether [keyboard.send] accepts a
    key-combination or raises [ValueError]. *)
Record keyboard_module : Type := { send_accepts : json → bool }.

Record globals : Type := {
  GLOBAL_CONFIG : json;
  ACTIVE_SETTINGS : json;
  current_speed_mode : string;
  MIC_IS_HELD : bool;
  keyboard : option keyboard_module;   (* None: the import failed *)
  sr : bool;                           (* false: the import failed *)
  disk : file_content;
  log : list effect
}.

Definition set_GLOBAL_CONFIG (v : json) (g : globals) : globals :=
  {| GLOBAL_CONFIG := v; ACTIVE_SETTINGS := ACTIVE_SETTINGS g;
     current_speed_mode := current_speed_mode g; MIC_IS_HELD := MIC_IS_HELD g;
     keyboard := keyboard g; sr := sr g; disk := disk g; log := log g |}.

Definition set_ACTIVE_SETTINGS (v : json) (g : globals) : globals :=
  {| GLOBAL_CONFIG := GLOBAL_CONFIG g; ACTIVE_SETTINGS := v;
     current_speed_mode := current_speed_mode g; MIC_IS_HELD := MIC_IS_HELD g;
     keyboard := keyboard g; sr := sr g; disk := disk g; log := log g |}.

Definition set_current_speed_mode (v : string) (g : globals) : globals :=
  {| GLOBAL_CONFIG := GLOBAL_CONFIG g; ACTIVE_SETTINGS := ACTIVE_SETTINGS g;
     current_speed_mode := v; MIC_IS_HELD := MIC_IS_HELD g;
     keyboard := keyboard g; sr := sr g; disk := disk g; log := log g |}.

Definition set_MIC_IS_HELD (v : bool) (g : globals) : globals :=
  {| GLOBAL_CONFIG := GLOBAL_CONFIG g; ACTIVE_SETTINGS := ACTIVE_SETTINGS g;
     current_speed_mode := current_speed_mode g; MIC_IS_HELD := v;
     keyboard := keyboard g; sr := sr g; disk := disk g; log := log g |}.

Definition set_disk (v : file_content) (g : globals) : globals :=
  {| GLOBAL_CONFIG := GLOBAL_CONFIG g; ACTIVE_SETTINGS := ACTIVE_SETTINGS g;
     current_speed_mode := current_speed_mode g; MIC_IS_HELD := MIC_IS_HELD g;
     keyboard := keyboard g; sr := sr g; disk := v; log := log g |}.

Definition emit (e : effect) (g : globals) : globals :=
  {| GLOBAL_CONFIG := GLOBAL_CONFIG g; ACTIVE_SETTINGS := ACTIVE_SETTINGS g;
     current_speed_mode := current_speed_mode g; MIC_IS_HELD := MIC_IS_HELD g;
     keyboard := keyboard g; sr := sr g; disk := disk g;
     log := log g ++ [e] |}.

(** The globals as the module body leaves them, on a machine described by
    which optional imports succeeded and what is on disk. *)
Definition startup (kb : option keyboard_module) (speech : bool)
    (file : file_content) : globals :=
  {| GLOBAL_CONFIG :=
       JObj (<["active_profile" := JStr "Mode A"]>
            (<["profiles" := JObj (<["Mode A" := JObj DEFAULT_PROFILE]> ∅)]> ∅));
     ACTIVE_SETTINGS := JObj DEFAULT_PROFILE;
     current_speed_mode := "NORMAL";
     MIC_IS_HELD := false;
     keyboard := kb; sr := speech; disk := file; log := [] |}.

(** ** Backend *)

Definition set_mouse_speed (speed : json) (g : globals) : outcome globals :=
  n ← Py.int speed;
  let speed := Z.max 1 (Z.min 20 n) in
  (* the call is attempted; whatever it raises is swallowed *)
  Returns (emit (SystemParametersInfo speed) g).

(** The [try] block of [load_config]: the value of [GLOBAL_CONFIG] when the
    block is left.  Any exception inside it is swallowed. *)
Definition read_config (g : globals) : json :=
  match disk g with
  | Document data =>
      match contains data (JStr "profiles") with
      | Returns true => data
      | _ => GLOBAL_CONFIG g
      end
  | Absent | Garbled => GLOBAL_CONFIG g
  end.

Definition load_config (g : globals) : outcome globals :=
  let g := set_GLOBAL_CONFIG (read_config g) g in
  active ← Py.get (GLOBAL_CONFIG g) "active_profile" (JStr "Mode A");
  profiles ← getitem (GLOBAL_CONFIG g) (JStr "profiles");
  present ← contains profiles active;
  g ← (if negb present then
         profiles ← setitem profiles active (JObj DEFAULT_PROFILE);
         cfg ← setitem (GLOBAL_CONFIG g) (JStr "profiles") profiles;
         cfg ← setitem cfg (JStr "active_profile") active;
         Returns (set_GLOBAL_CONFIG cfg g)
       else Returns g);
  profiles ← getitem (GLOBAL_CONFIG g) (JStr "profiles");
  settings ← getitem profiles active;
  Returns (set_ACTIVE_SETTINGS settings g).

(** [save_config]: [writable] says whether the file can be opened and
    written this time; writing a JSON document does not fail otherwise.
    The boolean is the function's return value. *)
Definition save_config (writable : bool) (g : globals) : globals * bool :=
  if writable then (set_disk (Document (GLOBAL_CONFIG g)) g, true)
  else (g, false).

(** ** Actions *)

Definition start_voice_recording (g : globals) : globals :=
  if negb (sr g) then emit (Print "❌ 缺 SpeechRecognition") g
  else emit RecordThread (set_MIC_IS_HELD true g).

Definition stop_voice_recording (g : globals) : globals :=
  if MIC_IS_HELD g then
    set_MIC_IS_HELD false (emit (Print "🛑 停止收音，開始轉譯...") g)
  else g.

Definition toggle_dpi (g : globals) : outcome globals :=
  fast ← Py.get (ACTIVE_SETTINGS g) "dpi_fast" (JInt 18);
  normal ← Py.get (ACTIVE_SETTINGS g) "dpi_normal" (JInt 10);
  g ← (if bool_decide (current_speed_mode g = "NORMAL") then
         g ← set_mouse_speed fast g;
         Returns (set_current_speed_mode "FAST" g)
       else
         g ← set_mouse_speed normal g;
         Returns (set_current_speed_mode "NORMAL" g));
  Returns (emit (Print ("👉 DPI: " +:+ current_speed_mode g)) g).

Definition execute_button_press (btn_key : string) (g : globals)
    : outcome globals :=
  cfg ← Py.get (ACTIVE_SETTINGS g) btn_key (JObj ∅);
  action ← Py.get cfg "action" JNull;
  param ← Py.get cfg "param" JNull;
  if eq_str action "voice_typing" then Returns (start_voice_recording g)
  else if eq_str action "open_url" then
    if truthy param then Returns (emit (BrowserThread param) g)
    else Returns g
  else if eq_str action "key_press" then
    match keyboard g with
    | Some kb =>
        if truthy param then
          if send_accepts kb param then Returns (emit (KeyboardSend param) g)
          else Raises ValueError
        else Returns g
    | None => Returns g
    end
  else if eq_str action "toggle_dpi" then toggle_dpi g
  else Returns g.

Definition execute_button_release (btn_key : string) (g : globals)
    : outcome globals :=
  cfg ← Py.get (ACTIVE_SETTINGS g) btn_key (JObj ∅);
  action ← Py.get cfg "action" JNull;
  if eq_str action "voice_typing" then Returns (stop_voice_recording g)
  else Returns g.

(** ** HID listener *)

(** One call of [h.read(64)]: the bytes of a report (the empty list when
    nothing is pending), or a failure of the device. *)
Inductive read : Type :=
| Report (data : list Z)
| ReadFails.

(** A call of the dispatcher made by the listener. *)
Inductive event : Type :=
| Press (btn_key : string)
| Release (btn_key : string).

#[global] Instance event_eq_dec : EqDecision event.
Proof. solve_decision. Defined.

(** How the listener thread stands after a prefix of its reads. *)
Inductive status : Type :=
| Polling        (* still inside [while True] *)
| Returned       (* left through [except: return] *)
| Lost.          (* a handler left the modelled fragment *)

(** What one run of the listener did: the calls it made, in order; the
    flag map after the set-up and after every completed pass of the loop;
    where the thread stands; and the call, if any, that did not return. *)
Record run (S : Type) : Type := {
  final : S;
  dispatched : list event;
  flag_history : list (gmap Z bool);
  state_of : status;
  interrupted : list event
}.
Arguments final {S} r.
Arguments dispatched {S} r.
Arguments flag_history {S} r.
Arguments state_of {S} r.
Arguments interrupted {S} r.

Definition flag (pressed_flags : gmap Z bool) (key : Z) : bool :=
  default false (pressed_flags !! key).

Definition initial_flags : gmap Z bool :=
  <[33 := false]> (<[35 := false]> (<[37 := false]> ∅)).

(** The [if key == 33: ... elif key == 35: ... elif key == 37: ...] chain:
    the button the handler is called with, if any branch is taken. *)
Definition button (key : Z) : option string :=
  if key =? 33 then Some "mic"
  else if key =? 35 then Some "search"
  else if key =? 37 then Some "side"
  else None.

Section Listener.
(** The listener is written over the two handlers it calls, so that its
    properties do not depend on what the configured actions do. *)
Context {S : Type}.
Variable on_press on_release : string → S → outcome S.

(** The outcome of one pass through the loop body. *)
Inductive pass : Type :=
| Next (pressed_flags : gmap Z bool) (s : S) (calls : list event)
| Leave (s : S) (calls : list event)
| Stray (s : S) (calls : list event).

(** The calls made during a pass. *)
Definition calls (p : pass) : list event :=
  match p with
  | Next _ _ evs | Leave _ evs | Stray _ evs => evs
  end.

Definition call (handler : string → S → outcome S) (kind : string → event)
    (target : option string) (s : S) (after : gmap Z bool) : pass :=
  match target with
  | Some btn_key =>
      match handler btn_key s with
      | Returns s' => Next after s' [kind btn_key]
      | Raises _ => Leave s [kind btn_key]
      | Unmodelled => Stray s [kind btn_key]
      end
  | None => Next after s []
  end.

Definition loop_body (pressed_flags : gmap Z bool) (s : S) (r : read) : pass :=
  match r with
  | ReadFails => Leave s []
  | Report data =>
      if negb (bool_decide (data = [])) && bool_decide (5 < length data)%nat then
        let key := nth 5 data 0 in
        if bool_decide (key ∈ [33; 35; 37]) then
          if negb (flag pressed_flags key) then
            call on_press Press (button key) s (<[key := true]> pressed_flags)
          else Next pressed_flags s []
        else if bool_decide (key ∈ [34; 36; 38]) then
          let original_key := key - 1 in
          if flag pressed_flags original_key then
            call on_release Release (button original_key) s
                 (<[original_key := false]> pressed_flags)
          else Next pressed_flags s []
        else Next pressed_flags s []
      else Next pressed_flags s []      (* time.sleep(0.005) *)
  end.

Fixpoint loop (pressed_flags : gmap Z bool) (s : S) (reads : list read)
    : run S :=
  match reads with
  | [] => {| final := s; dispatched := []; flag_history := [pressed_flags];
             state_of := Polling; interrupted := [] |}
  | r :: reads =>
      match loop_body pressed_flags s r with
      | Next pressed_flags' s' calls =>
          let rest := loop pressed_flags' s' reads in
          {| final := final rest; dispatched := calls ++ dispatched rest;
             flag_history := pressed_flags :: flag_history rest;
             state_of := state_of rest; interrupted := interrupted rest |}
      | Leave s' calls =>
          {| final := s'; dispatched := calls;
             flag_history := [pressed_flags]; state_of := Returned;
             interrupted := calls |}
      | Stray s' calls =>
          {| final := s'; dispatched := calls;
             flag_history := [pressed_flags]; state_of := Lost;
             interrupted := calls |}
      end
  end.

(** [monitor_mouse(path)] once the device is open, over the reads it
    performs. *)
Definition monitor (s : S) (reads : list read) : run S :=
  loop initial_flags s reads.

End Listener.

(** The listener of the program calls the action dispatcher. *)
Definition monitor_mouse (g : globals) (reads : list read) : run globals :=
  monitor execute_button_press execute_button_release g reads.

(** Counting on a run. *)
Definition count (e : event) (calls : list event) : nat :=
  length (filter (λ x, x = e) calls).

(** The number of times the flag of [key] goes from false to true along a
    history of flag maps. *)
Fixpoint rising (key : Z) (history : list (gmap Z bool)) : nat :=
  match history with
  | before :: (after :: _) as rest =>
      ((if negb (flag before key) && flag after key then 1 else 0)
       + rising key rest)%nat
  | _ => 0%nat
  end.

(** The event code a read carries: byte 5 of a report longer than 5
    bytes. *)
Definition code (r : read) : option Z :=
  match r with
  | Report data =>
      if negb (bool_decide (data = [])) && bool_decide (5 < length data)%nat
      then Some (nth 5 data 0)
      else None
  | ReadFails => None
  end.

(** The calls that concern one button. *)
Definition about (btn : string) (calls : list event) : list event :=
  filter (λ e, e = Press btn ∨ e = Release btn) calls.

(** The state machine of one button as the specification draws it, over
    the codes received: Released goes to Pressed on the down code, with a
    press; Pressed stays on a repeated down code, with nothing; Pressed
    goes to Released on the up code, with a release; Released stays on a
    repeated up code, with nothing; any other code is ignored.  [held]
    tells Pressed from Released. *)
Fixpoint spec_button_machine (key : Z) (btn : string) (held : bool)
    (codes : list Z) : list event :=
  match codes with
  | [] => []
  | c :: codes =>
      if c =? key then
        (if held then [] else [Press btn])
        ++ spec_button_machine key btn true codes
      else if c =? key + 1 then
        (if held then [Release btn] else [])
        ++ spec_button_machine key btn false codes
      else spec_button_machine key btn held codes
  end.

(** [n] successive invocations of an action. *)
Fixpoint successive (n : nat) (action : globals → outcome globals)
    (g : globals) : outcome globals :=
  match n with
  | O => Returns g
  | S n => g ← action g; successive n action g
  end.

(** ** Settings window *)

(** The Tk variables of a row.  A [StringVar] holds a string; an [IntVar]
    holds an integer or, after the user typed into the spin box, text that
    [IntVar.get] rejects ([None]). *)
Record ButtonConfigRow : Type := {
  button_key : string;
  action_var : string;
  entry_var : string;
  dpi_fast_var : option Z;
  dpi_normal_var : option Z
}.

Definition StringVar_set (v : json) : outcome string :=
  match v with
  | JStr s => Returns s
  | _ => Unmodelled
  end.

Definition IntVar_set (v : json) : outcome (option Z) :=
  match v with
  | JInt z => Returns (Some z)
  | _ => Unmodelled
  end.

Definition IntVar_get (content : option Z) : outcome Z :=
  match content with
  | Some z => Returns z
  | None => Raises TclError
  end.

(** [ButtonConfigRow.__init__] *)
Definition ButtonConfigRow_init (key : string) : ButtonConfigRow :=
  {| button_key := key; action_var := ""; entry_var := "";
     dpi_fast_var := Some 0; dpi_normal_var := Some 0 |}.

(** [ACTION_MAP_INTERNAL.get(internal_action, "⌨️ 模擬按鍵 (快捷鍵)")] *)
Definition display_of (internal_action : json) : outcome string :=
  match internal_action with
  | JStr s => Returns (default "⌨️ 模擬按鍵 (快捷鍵)" (ACTION_MAP_INTERNAL !! s))
  | JNull | JBool _ | JInt _ => Returns "⌨️ 模擬按鍵 (快捷鍵)"
  | JList _ | JObj _ => Raises TypeError
  end.

Definition load_data (row : ButtonConfigRow) (profile_data : json)
    : outcome ButtonConfigRow :=
  btn_data ← Py.get profile_data (button_key row) (JObj ∅);
  internal_action ← Py.get btn_data "action" (JStr "key_press");
  display_text ← display_of internal_action;
  param ← Py.get btn_data "param" (JStr "");
  entry ← StringVar_set param;
  fast ← Py.get profile_data "dpi_fast" (JInt 18);
  fast ← IntVar_set fast;
  normal ← Py.get profile_data "dpi_normal" (JInt 10);
  normal ← IntVar_set normal;
  (* refresh_dynamic_ui only rebuilds the widgets of the row *)
  Returns {| button_key := button_key row; action_var := display_text;
             entry_var := entry; dpi_fast_var := fast;
             dpi_normal_var := normal |}.

Definition get_ui_data (row : ButtonConfigRow)
    : outcome (gmap string json * option (gmap string json)) :=
  let internal_action := ACTION_MAP_DISPLAY !! action_var row in
  let action := from_option JStr JNull internal_action in
  let data : gmap string json :=
    <["action" := action]> (<["param" := JStr ""]> ∅) in
  let data :=
    if bool_decide (internal_action = Some "open_url")
       || bool_decide (internal_action = Some "key_press")
    then <["param" := JStr (entry_var row)]> data else data in
  if bool_decide (internal_action = Some "toggle_dpi") then
    fast ← IntVar_get (dpi_fast_var row);
    normal ← IntVar_get (dpi_normal_var row);
    Returns (data, Some (<["dpi_fast" := JInt fast]>
                         (<["dpi_normal" := JInt normal]> ∅)))
  else Returns (data, None).

(** [self.rows] is a dictionary filled in the order mic, search, side; it
    is kept as the list of its items. *)
Record MouseApp : Type := {
  profile_var : string;
  rows : list (string * ButtonConfigRow)
}.

Fixpoint load_rows (items : list (string * ButtonConfigRow)) (data : json)
    : outcome (list (string * ButtonConfigRow)) :=
  match items with
  | [] => Returns []
  | (key, row) :: items =>
      row ← load_data row data;
      items ← load_rows items data;
      Returns ((key, row) :: items)
  end.

Definition load_profile_to_gui (profile_name : string) (app : MouseApp)
    (g : globals) : outcome MouseApp :=
  profiles ← getitem (GLOBAL_CONFIG g) (JStr "profiles");
  data ← Py.get profiles profile_name (JObj DEFAULT_PROFILE);
  items ← load_rows (rows app) data;
  Returns {| profile_var := profile_var app; rows := items |}.

Definition change_profile (app : MouseApp) (g : globals)
    : outcome (MouseApp * globals) :=
  let new_profile := profile_var app in
  app ← load_profile_to_gui new_profile app g;
  cfg ← setitem (GLOBAL_CONFIG g) (JStr "active_profile") (JStr new_profile);
  Returns (app, set_GLOBAL_CONFIG cfg g).

(** [MouseApp.__init__] *)
Definition MouseApp_init (g : globals) : outcome MouseApp :=
  active ← getitem (GLOBAL_CONFIG g) (JStr "active_profile");
  selected ← StringVar_set active;
  let app := {| profile_var := selected;
                rows := [("mic", ButtonConfigRow_init "mic");
                         ("search", ButtonConfigRow_init "search");
                         ("side", ButtonConfigRow_init "side")] |} in
  load_profile_to_gui selected app g.

(** [add_profile]: [answer] is what the dialog returned. *)
Definition add_profile (answer : option string) (app : MouseApp) (g : globals)
    : outcome (MouseApp * globals) :=
  match answer with
  | Some name =>
      if bool_decide (name = "") then Returns (app, g)
      else
        profiles ← getitem (GLOBAL_CONFIG g) (JStr "profiles");
        taken ← contains profiles (JStr name);
        if negb taken then
          active ← getitem (GLOBAL_CONFIG g) (JStr "active_profile");
          source ← getitem profiles active;
          copy ← match source with
                 | JObj _ | JList _ => Returns source
                 | _ => Raises AttributeError
                 end;
          profiles ← setitem profiles (JStr name) copy;
          cfg ← setitem (GLOBAL_CONFIG g) (JStr "profiles") profiles;
          change_profile {| profile_var := name; rows := rows app |}
                         (set_GLOBAL_CONFIG cfg g)
        else Returns (app, g)
  | None => Returns (app, g)
  end.

(** [del_profile]: [confirmed] is the answer to the confirmation box. *)
Definition del_profile (confirmed : bool) (app : MouseApp) (g : globals)
    : outcome (MouseApp * globals) :=
  let name := profile_var app in
  if bool_decide (name = "Mode A") then
    Returns (app, emit (ShowError "錯誤" "無法刪除預設模式") g)
  else if confirmed then
    profiles ← getitem (GLOBAL_CONFIG g) (JStr "profiles");
    profiles ← delitem profiles (JStr name);
    cfg ← setitem (GLOBAL_CONFIG g) (JStr "profiles") profiles;
    change_profile {| profile_var := "Mode A"; rows := rows app |}
                   (set_GLOBAL_CONFIG cfg g)
  else Returns (app, g).

(** The [for key, row in self.rows.items()] loop of [save_all]. *)
Fixpoint collect (items : list (string * ButtonConfigRow))
    (new_data dpi_settings : gmap string json)
    : outcome (gmap string json * gmap string json) :=
  match items with
  | [] => Returns (new_data, dpi_settings)
  | (key, row) :: items =>
      '(btn_data, row_dpi) ← get_ui_data row;
      let new_data := <[key := JObj btn_data]> new_data in
      let dpi_settings :=
        match row_dpi with
        | Some d => if truthy (JObj d) then d else dpi_settings
        | None => dpi_settings
        end in
      collect items new_data dpi_settings
  end.

(** [save_all]: [writable] is passed on to [save_config]. *)
Definition save_all (writable : bool) (app : MouseApp) (g : globals)
    : outcome globals :=
  let current := profile_var app in
  profiles ← getitem (GLOBAL_CONFIG g) (JStr "profiles");
  current_data ← getitem profiles (JStr current);
  fast ← Py.get current_data "dpi_fast" (JInt 18);
  normal ← Py.get current_data "dpi_normal" (JInt 10);
  let dpi_settings : gmap string json :=
    <["dpi_fast" := fast]> (<["dpi_normal" := normal]> ∅) in
  '(new_data, dpi_settings) ← collect (rows app) ∅ dpi_settings;
  (* {**new_data, **dpi_settings}: the second dictionary wins *)
  let final_profile_data := JObj (dpi_settings ∪ new_data) in
  profiles ← setitem profiles (JStr current) final_profile_data;
  cfg ← setitem (GLOBAL_CONFIG g) (JStr "profiles") profiles;
  cfg ← setitem cfg (JStr "active_profile") (JStr current);
  let g := set_ACTIVE_SETTINGS final_profile_data (set_GLOBAL_CONFIG cfg g) in
  let '(g, saved) := save_config writable g in
  if saved then
    (* the button shows a confirmation for a second *)
    speed ← Py.get (ACTIVE_SETTINGS g) "dpi_normal" (JInt 10);
    set_mouse_speed speed g
  else Returns g.

(** [on_close] saves and then ends the process. *)
Definition on_close (writable : bool) (app : MouseApp) (g : globals)
    : outcome globals :=
  save_all writable app g.

(** [main] up to the creation of the window. *)
Definition main (g : globals) : outcome (MouseApp * globals) :=
  g ← load_config g;
  app ← MouseApp_init g;
  Returns (app, g).

(** ** Profiles and their button keys *)

(** A profile that holds a config under each of the three button keys. *)
Definition populated (profile : json) : bool :=
  match profile with
  | JObj p =>
      bool_decide (is_Some (p !! "mic"))
      && bool_decide (is_Some (p !! "search"))
      && bool_decide (is_Some (p !! "side"))
  | _ => false
  end.

(** Every profile of a configuration is populated. *)
Definition every_profile_populated (cfg : json) : bool :=
  match getitem cfg (JStr "profiles") with
  | Returns (JObj profiles) =>
      forallb (λ entry, populated entry.2) (map_to_list profiles)
  | _ => false
  end.

(** The types the data model gives to the fields of a profile: every
    field that is present holds a value of its type. *)
Definition is_string (v : json) : bool :=
  match v with JStr _ => true | _ => false end.

Definition is_integer (v : json) : bool :=
  match v with JInt _ => true | _ => false end.

Definition typed_button (v : json) : bool :=
  match v with
  | JObj o =>
      is_string (default (JStr "") (o !! "action"))
      && is_string (default (JStr "") (o !! "param"))
  | _ => false
  end.

Definition typed_profile (v : json) : bool :=
  match v with
  | JObj o =>
      typed_button (default (JObj ∅) (o !! "mic"))
      && typed_button (default (JObj ∅) (o !! "search"))
      && typed_button (default (JObj ∅) (o !! "side"))
      && is_integer (default (JInt 0) (o !! "dpi_fast"))
      && is_integer (default (JInt 0) (o !! "dpi_normal"))
  | _ => false
  end.

(** The rows of the window as [MouseApp.__init__] creates them: one per
    button, each under its own key. *)
Definition three_rows (items : list (string * ButtonConfigRow)) : Prop :=
  items.*1 = ["mic"; "search"; "side"]
  ∧ Forall (λ item, button_key item.2 = item.1) items.

(** ** Sample data *)

(** A config file whose only profile holds DPI values and no button. *)
Definition sparse_document : json :=
  JObj (<["active_profile" := JStr "Mode A"]>
       (<["profiles" :=
            JObj (<["Mode A" := JObj (<["dpi_fast" := JInt 5]>
                                     (<["dpi_normal" := JInt 3]> ∅))]> ∅)]>
          ∅)).

(** A configuration with a second profile, "Work", selected. *)
Definition work_profile : gmap string json :=
  <["mic" := button_config "toggle_dpi" ""]>
  (<["search" := button_config "open_url" "https://example.org"]>
  (<["side" := button_config "key_press" "ctrl+c"]>
  (<["dpi_fast" := JInt 20]>
  (<["dpi_normal" := JInt 4]> ∅)))).

Definition two_profiles : gmap string json :=
  <["active_profile" := JStr "Work"]>
  (<["profiles" := JObj (<["Mode A" := JObj DEFAULT_PROFILE]>
                        (<["Work" := JObj work_profile]> ∅))]> ∅).

Definition work_globals : globals :=
  set_ACTIVE_SETTINGS (JObj work_profile)
    (set_GLOBAL_CONFIG (JObj two_profiles) (startup None false Absent)).

(** The settings window with "Work" selected, its rows not yet filled. *)
Definition work_window : MouseApp :=
  {| profile_var := "Work";
     rows := [("mic", ButtonConfigRow_init "mic");
              ("search", ButtonConfigRow_init "search");
              ("side", ButtonConfigRow_init "side")] |}.

(** ** Further notions used in the properties *)

(** A read that carries no button code: a report that is too short, or
    whose code is none of 33 to 38. *)
Definition idle (r : read) : bool :=
  match r with
  | Report _ =>
      match code r with
      | Some c => negb (bool_decide (c ∈ [33; 34; 35; 36; 37; 38]))
      | None => true
      end
  | ReadFails => false
  end.

Definition is_report (r : read) : bool :=
  match r with Report _ => true | ReadFails => false end.

(** The key-emulation backend, when present, accepts every combination. *)
Definition keyboard_accepts_all (g : globals) : Prop :=
  ∀ kb, keyboard g = Some kb → ∀ keys, send_accepts kb keys = true.

(** The action a row shows for a stored action: the stored one when it is
    one of the four the window knows, [key_press] otherwise. *)
Definition shown_action (action : string) : string :=
  if bool_decide (action ∈ ["voice_typing"; "open_url"; "key_press";
                            "toggle_dpi"])
  then action else "key_press".

(** Everything of the globals but the configuration and the log. *)
Definition runtime (g : globals)
    : json * string * bool * option keyboard_module * bool * file_content :=
  (ACTIVE_SETTINGS g, current_speed_mode g, MIC_IS_HELD g, keyboard g, sr g,
   disk g).

(** What an action of the dispatcher may change: the speed mode, the
    capture flag and the log, which only grows. *)
Definition keeps_configuration (g g' : globals) : Prop :=
  GLOBAL_CONFIG g' = GLOBAL_CONFIG g
  ∧ ACTIVE_SETTINGS g' = ACTIVE_SETTINGS g
  ∧ keyboard g' = keyboard g
  ∧ sr g' = sr g
  ∧ disk g' = disk g
  ∧ log g `prefix_of` log g'.

(** The globals after [save_all] has stored the configuration [cfg] with
    the profile [final], the normal speed of which reads as [n]. *)
Definition saved (writable : bool) (cfg final : json) (n : Z) (g : globals)
    : globals :=
  let g := set_ACTIVE_SETTINGS final (set_GLOBAL_CONFIG cfg g) in
  if writable
  then emit (SystemParametersInfo (Z.max 1 (Z.min 20 n)))
            (set_disk (Document cfg) g)
  else g.

(** The DPI values [save_all] starts from: those of the stored profile. *)
Definition stored_dpi (current_data : gmap string json) : gmap string json :=
  <["dpi_fast" := default (JInt 18) (current_data !! "dpi_fast")]>
  (<["dpi_normal" := default (JInt 10) (current_data !! "dpi_normal")]> ∅).

(** Every row shows one of the four actions of the combo box. *)
Definition shows_known (items : list (string * ButtonConfigRow)) : Prop :=
  Forall (λ item, is_Some (ACTION_MAP_DISPLAY !! action_var item.2)) items.

(** * Properties *)

(** ** The button-state machine *)

Section ListenerFacts.
Context {State : Type}.
Variable on_press on_release : string → State → outcome State.

#[local] Abbreviation body := (loop_body on_press on_release).
#[local] Abbreviation run_from := (loop on_press on_release).
#[local] Abbreviation listen := (monitor on_press on_release).

Lemma button_cases key btn :
  button key = Some btn →
  (key = 33 ∧ btn = "mic") ∨ (key = 35 ∧ btn = "search")
  ∨ (key = 37 ∧ btn = "side").
Proof.
  unfold button. intros H.
  destruct (Z.eqb_spec key 33); [left; split; congruence|].
  destruct (Z.eqb_spec key 35); [right; left; split; congruence|].
  destruct (Z.eqb_spec key 37); [right; right; split; congruence|].
  discriminate.
Qed.

Lemma button_inj key key' btn :
  button key = Some btn → button key' = Some btn → key = key'.
Proof.
  intros H H'.
  destruct (button_cases _ _ H) as [[-> ->]|[[-> ->]|[-> ->]]];
    destruct (button_cases _ _ H') as [[-> ?]|[[-> ?]|[-> ?]]];
    congruence.
Qed.

Lemma flag_insert_eq flags key b : flag (<[key := b]> flags) key = b.
Proof. unfold flag. by rewrite lookup_insert_eq. Qed.

Lemma flag_insert_ne flags key key' b :
  key ≠ key' → flag (<[key := b]> flags) key' = flag flags key'.
Proof. intros H. unfold flag. by rewrite lookup_insert_ne. Qed.

(** A report that carries a down code. *)
Lemma loop_body_down flags s data key btn :
  (5 < length data)%nat → nth 5 data 0 = key → button key = Some btn →
  body flags s (Report data) =
    if flag flags key then Next flags s []
    else call on_press Press (Some btn) s (<[key := true]> flags).
Proof.
  intros Hlen Hkey Hbtn. unfold loop_body.
  assert (data ≠ []) as Hne by (intros ->; simpl in Hlen; lia).
  rewrite (bool_decide_eq_false_2 _ Hne), (bool_decide_eq_true_2 _ Hlen).
  simpl. rewrite Hkey, Hbtn.
  rewrite bool_decide_eq_true_2; [by destruct (flag flags key)|].
  destruct (button_cases _ _ Hbtn) as [[-> _]|[[-> _]|[-> _]]]; set_solver.
Qed.

(** A report that carries an up code, the down code plus one. *)
Lemma loop_body_up flags s data key btn :
  (5 < length data)%nat → nth 5 data 0 = key + 1 → button key = Some btn →
  body flags s (Report data) =
    if flag flags key
    then call on_release Release (Some btn) s (<[key := false]> flags)
    else Next flags s [].
Proof.
  intros Hlen Hkey Hbtn. unfold loop_body.
  assert (data ≠ []) as Hne by (intros ->; simpl in Hlen; lia).
  rewrite (bool_decide_eq_false_2 _ Hne), (bool_decide_eq_true_2 _ Hlen).
  simpl. rewrite Hkey. replace (key + 1 - 1) with key by lia. rewrite Hbtn.
  rewrite bool_decide_eq_false_2.
  - rewrite bool_decide_eq_true_2; [done|].
    destruct (button_cases _ _ Hbtn) as [[-> _]|[[-> _]|[-> _]]]; set_solver.
  - destruct (button_cases _ _ Hbtn) as [[-> _]|[[-> _]|[-> _]]];
      rewrite !elem_of_cons, elem_of_nil; lia.
Qed.

(** Every pass through the loop body is of one of four kinds. *)
Lemma loop_body_cases flags s r :
  body flags s r = Next flags s []
  ∨ body flags s r = Leave s []
  ∨ (∃ key btn, code r = Some key ∧ button key = Some btn ∧
       flag flags key = false ∧
       body flags s r =
         call on_press Press (Some btn) s (<[key := true]> flags))
  ∨ (∃ key btn, code r = Some (key + 1) ∧ button key = Some btn ∧
       flag flags key = true ∧
       body flags s r =
         call on_release Release (Some btn) s (<[key := false]> flags)).
Proof.
  destruct r as [data|]; [|by right; left].
  unfold loop_body, code.
  destruct (negb (bool_decide (data = [])) && bool_decide (5 < length data)%nat);
    [|by left].
  simpl. set (key := nth 5 data 0).
  case_bool_decide as Hd.
  - destruct (flag flags key) eqn:Hf; simpl; [by left|].
    right; right; left.
    assert (∃ btn, button key = Some btn) as [btn Hb].
    { rewrite !elem_of_cons, elem_of_nil in Hd.
      destruct Hd as [->|[->|[->|[]]]]; eauto. }
    exists key, btn. by rewrite Hb.
  - case_bool_decide as Hu; [|by left].
    destruct (flag flags (key - 1)) eqn:Hf; simpl; [|by left].
    right; right; right.
    assert (∃ btn, button (key - 1) = Some btn) as [btn Hb].
    { rewrite !elem_of_cons, elem_of_nil in Hu.
      destruct Hu as [->|[->|[->|[]]]]; eauto. }
    exists (key - 1), btn. rewrite Hb.
    repeat split; try done. f_equal. lia.
Qed.

Lemma code_Report data c :
  code (Report data) = Some c → (5 < length data)%nat ∧ nth 5 data 0 = c.
Proof.
  unfold code. case_bool_decide as Hne; cbn; [done|].
  case_bool_decide; cbn; [|done]. by intros [= <-].
Qed.

Lemma code_None flags s r :
  code r = None → body flags s r = Next flags s [] ∨ body flags s r = Leave s [].
Proof.
  destruct r as [data|]; [|by right]. unfold code, loop_body.
  destruct (negb (bool_decide (data = [])) && bool_decide (5 < length data)%nat);
    [done|by left].
Qed.

Lemma call_cases (handler : string → State → outcome State) kind btn s after :
  (∃ s', call handler kind (Some btn) s after = Next after s' [kind btn])
  ∨ call handler kind (Some btn) s after = Leave s [kind btn]
  ∨ call handler kind (Some btn) s after = Stray s [kind btn].
Proof. simpl. destruct (handler btn s); eauto. Qed.

Lemma calls_call (handler : string → State → outcome State) kind btn s after :
  calls (call handler kind (Some btn) s after) = [kind btn].
Proof. simpl. by destruct (handler btn s). Qed.

Lemma flag_history_head flags s reads :
  ∃ rest, flag_history (run_from flags s reads) = flags :: rest.
Proof.
  destruct reads as [|r reads]; simpl; [eauto|].
  destruct (body flags s r); simpl; eauto.
Qed.


Lemma count_cons e x l :
  count e (x :: l) = ((if decide (x = e) then 1 else 0) + count e l)%nat.
Proof. unfold count. rewrite filter_cons. by destruct (decide (x = e)). Qed.

Lemma rising_cons key before after rest :
  rising key (before :: after :: rest) =
    ((if negb (flag before key) && flag after key then 1 else 0)
     + rising key (after :: rest))%nat.
Proof. reflexivity. Qed.

(** Presses counted against rising edges, from any flag map. *)
Lemma loop_press_count flags s reads key btn :
  button key = Some btn →
  count (Press btn) (dispatched (run_from flags s reads)) =
    (rising key (flag_history (run_from flags s reads))
     + count (Press btn) (interrupted (run_from flags s reads)))%nat.
Proof.
  intros Hbtn. revert flags s.
  induction reads as [|r reads IH]; intros flags s; [reflexivity|].
  cbn [loop].
  destruct (loop_body_cases flags s r)
    as [E|[E|[(k & b & Hc & Hb & Hf & E)|(k & b & Hc & Hb & Hf & E)]]];
    rewrite E.
  - cbn [dispatched flag_history interrupted app].
    destruct (flag_history_head flags s reads) as [t Ht].
    specialize (IH flags s). rewrite Ht in IH |- *. rewrite rising_cons.
    destruct (flag flags key); cbn [negb andb]; lia.
  - reflexivity.
  - destruct (call_cases on_press Press b s (<[k := true]> flags))
      as [[s' E']|[E'|E']]; rewrite E';
      cbn [dispatched flag_history interrupted app rising]; [|lia..].
    destruct (flag_history_head (<[k := true]> flags) s' reads) as [t Ht].
    specialize (IH (<[k := true]> flags) s'). rewrite Ht in IH |- *.
    rewrite count_cons.
    destruct (decide (k = key)) as [->|Hne].
    + assert (b = btn) as -> by congruence.
      rewrite flag_insert_eq, Hf, decide_True by done. cbn [negb andb]. lia.
    + rewrite flag_insert_ne by done.
      rewrite decide_False.
      * destruct (flag flags key); cbn [negb andb]; lia.
      * intros [= ->]. apply Hne. eapply button_inj; eauto.
  - destruct (call_cases on_release Release b s (<[k := false]> flags))
      as [[s' E']|[E'|E']]; rewrite E';
      cbn [dispatched flag_history interrupted app rising];
      [|rewrite !count_cons, decide_False by done; cbn; lia..].
    destruct (flag_history_head (<[k := false]> flags) s' reads) as [t Ht].
    specialize (IH (<[k := false]> flags) s'). rewrite Ht in IH |- *.
    rewrite count_cons, decide_False by done.
    destruct (decide (k = key)) as [->|Hne].
    + rewrite flag_insert_eq, andb_false_r. lia.
    + rewrite flag_insert_ne by done.
      destruct (flag flags key); cbn [negb andb]; lia.
Qed.

(** In every prefix of the calls, releases of a button never outnumber its
    presses by more than the press already recorded in the flag. *)
Lemma loop_release_matched flags s reads key btn n :
  button key = Some btn →
  (count (Release btn) (take n (dispatched (run_from flags s reads)))
   ≤ count (Press btn) (take n (dispatched (run_from flags s reads)))
     + (if flag flags key then 1 else 0))%nat.
Proof.
  intros Hbtn. revert flags s n.
  induction reads as [|r reads IH]; intros flags s n.
  { cbn. rewrite take_nil. cbn. lia. }
  cbn [loop].
  destruct (loop_body_cases flags s r)
    as [E|[E|[(k & b & Hc & Hb & Hf & E)|(k & b & Hc & Hb & Hf & E)]]];
    rewrite E.
  - cbn. apply IH.
  - cbn. rewrite take_nil. cbn. lia.
  - destruct (call_cases on_press Press b s (<[k := true]> flags))
      as [[s' E']|[E'|E']]; rewrite E'; cbn [dispatched app].
    + destruct n as [|n]; [cbn; lia|]. cbn [take].
      rewrite !count_cons, decide_False by done.
      specialize (IH (<[k := true]> flags) s' n).
      destruct (decide (k = key)) as [->|Hne].
      * assert (b = btn) as -> by congruence.
        rewrite flag_insert_eq in IH. rewrite decide_True by done. lia.
      * rewrite flag_insert_ne in IH by done.
        destruct (decide (Press b = Press btn)); lia.
    + destruct n as [|[|n]]; cbn; rewrite ?count_cons, ?decide_False by done;
        cbn; lia.
    + destruct n as [|[|n]]; cbn; rewrite ?count_cons, ?decide_False by done;
        cbn; lia.
  - destruct (call_cases on_release Release b s (<[k := false]> flags))
      as [[s' E']|[E'|E']]; rewrite E'; cbn [dispatched app].
    + destruct n as [|n]; [cbn; lia|]. cbn [take].
      rewrite !count_cons, (decide_False (P := Release b = Press btn)) by done.
      specialize (IH (<[k := false]> flags) s' n).
      destruct (decide (k = key)) as [->|Hne].
      * rewrite flag_insert_eq in IH. rewrite Hf.
        destruct (decide (Release b = Release btn)); lia.
      * rewrite flag_insert_ne in IH by done.
        rewrite decide_False; [lia|].
        intros [= ->]. apply Hne. eapply button_inj; eauto.
    + destruct (decide (k = key)) as [->|Hne].
      * rewrite Hf. destruct n as [|[|n]]; cbn;
          rewrite ?count_cons; cbn; repeat case_decide; cbn; lia.
      * assert (Release b ≠ Release btn).
        { intros [= ->]. apply Hne. eapply button_inj; eauto. }
        destruct n as [|[|n]]; cbn; rewrite ?count_cons, ?decide_False by done;
          cbn; lia.
    + destruct (decide (k = key)) as [->|Hne].
      * rewrite Hf. destruct n as [|[|n]]; cbn;
          rewrite ?count_cons; cbn; repeat case_decide; cbn; lia.
      * assert (Release b ≠ Release btn).
        { intros [= ->]. apply Hne. eapply button_inj; eauto. }
        destruct n as [|[|n]]; cbn; rewrite ?count_cons, ?decide_False by done;
          cbn; lia.
Qed.

(** While a button is held, repeating its down report does nothing. *)
Lemma loop_held flags s data key btn n :
  (5 < length data)%nat → nth 5 data 0 = key → button key = Some btn →
  flag flags key = true →
  dispatched (run_from flags s (replicate n (Report data))) = []
  ∧ final (run_from flags s (replicate n (Report data))) = s
  ∧ last (flag_history (run_from flags s (replicate n (Report data)))) = Some flags
  ∧ state_of (run_from flags s (replicate n (Report data))) = Polling.
Proof.
  intros Hlen Hkey Hbtn Hf.
  induction n as [|n IH]; [done|].
  cbn [replicate loop].
  rewrite (loop_body_down _ _ _ _ _ Hlen Hkey Hbtn), Hf. cbn.
  destruct IH as (-> & -> & IH & ->). repeat split; try done.
  destruct (flag_history_head flags s (replicate n (Report data))) as [t Ht].
  rewrite Ht in IH |- *. done.
Qed.

(** While a button is released, its up report does nothing. *)
Lemma loop_released flags s data key btn n :
  (5 < length data)%nat → nth 5 data 0 = key + 1 → button key = Some btn →
  flag flags key = false →
  dispatched (run_from flags s (replicate n (Report data))) = []
  ∧ final (run_from flags s (replicate n (Report data))) = s
  ∧ last (flag_history (run_from flags s (replicate n (Report data))))
    = Some flags
  ∧ state_of (run_from flags s (replicate n (Report data))) = Polling.
Proof.
  intros Hlen Hkey Hbtn Hf.
  induction n as [|n IH]; [done|].
  cbn [replicate loop].
  rewrite (loop_body_up _ _ _ _ _ Hlen Hkey Hbtn), Hf. cbn.
  destruct IH as (-> & -> & IH & ->). repeat split; try done.
  destruct (flag_history_head flags s (replicate n (Report data))) as [t Ht].
  rewrite Ht in IH |- *. done.
Qed.

Lemma about_app btn l1 l2 : about btn (l1 ++ l2) = about btn l1 ++ about btn l2.
Proof. apply filter_app. Qed.

Lemma about_press btn b :
  about btn [Press b] = if decide (b = btn) then [Press b] else [].
Proof.
  unfold about. rewrite filter_cons, filter_nil.
  destruct (decide (b = btn)) as [->|Hne].
  - rewrite decide_True; [done|by left].
  - rewrite decide_False; [done|]. intros [[= ?]|[= ?]]. done.
Qed.

Lemma about_release btn b :
  about btn [Release b] = if decide (b = btn) then [Release b] else [].
Proof.
  unfold about. rewrite filter_cons, filter_nil.
  destruct (decide (b = btn)) as [->|Hne].
  - rewrite decide_True; [done|by right].
  - rewrite decide_False; [done|]. intros [[= ?]|[= ?]]. done.
Qed.

(** A report whose code belongs to another button, or to none, neither
    calls a handler of this button nor touches its flag. *)
Lemma loop_body_other flags s r c key btn :
  button key = Some btn → code r = Some c → c ≠ key → c ≠ key + 1 →
  about btn (calls (body flags s r)) = []
  ∧ ∀ flags' s' evs, body flags s r = Next flags' s' evs →
      flag flags' key = flag flags key.
Proof.
  intros Hbtn Hc Hd Hu.
  destruct (loop_body_cases flags s r)
    as [E|[E|[(k & b & Hc' & Hb & Hf & E)|(k & b & Hc' & Hb & Hf & E)]]];
    rewrite E.
  - split; [done|]. by intros ? ? ? [= <- _ _].
  - split; [done|]. done.
  - assert (k ≠ key) as Hk by congruence.
    assert (b ≠ btn) as Hbb.
    { intros ->. apply Hk. eapply button_inj; eauto. }
    rewrite calls_call, about_press, decide_False by done. split; [done|].
    intros flags' s' evs. cbn. destruct (on_press b s); [|done..].
    intros [= <- _ _]. by apply flag_insert_ne.
  - assert (k ≠ key) as Hk by (intros ->; congruence).
    assert (b ≠ btn) as Hbb.
    { intros ->. apply Hk. eapply button_inj; eauto. }
    rewrite calls_call, about_release, decide_False by done. split; [done|].
    intros flags' s' evs. cbn. destruct (on_release b s); [|done..].
    intros [= <- _ _]. by apply flag_insert_ne.
Qed.

(** The listener refines the state machine of each button: the calls it
    makes about a button are those of the machine run on the codes read, as
    far as the thread got, and all of them while it is still polling. *)
Lemma loop_refines flags s reads key btn :
  button key = Some btn →
  about btn (dispatched (run_from flags s reads))
    `prefix_of` spec_button_machine key btn (flag flags key) (omap code reads)
  ∧ (state_of (run_from flags s reads) = Polling →
     about btn (dispatched (run_from flags s reads))
     = spec_button_machine key btn (flag flags key) (omap code reads)).
Proof.
  intros Hbtn. revert flags s.
  induction reads as [|r reads IH]; intros flags s; [done|].
  cbn [loop omap list_omap]. fold (omap code reads).
  destruct (code r) as [c|] eqn:Hc.
  - cbn [spec_button_machine].
    destruct r as [data|]; [|done].
    destruct (code_Report _ _ Hc) as [Hlen Hkey].
    destruct (Z.eqb_spec c key) as [->|Hd];
      [|destruct (Z.eqb_spec c (key + 1)) as [->|Hu]].
    + rewrite (loop_body_down flags s data key btn Hlen Hkey Hbtn).
      destruct (flag flags key) eqn:Hf.
      { cbn. specialize (IH flags s). by rewrite Hf in IH. }
      destruct (call_cases on_press Press btn s (<[key := true]> flags))
        as [[s' E']|[E'|E']]; rewrite E'; cbn [dispatched state_of].
      * specialize (IH (<[key := true]> flags) s').
        rewrite flag_insert_eq in IH. destruct IH as [IH1 IH2].
        rewrite about_app, about_press, decide_True by done.
        split; [by apply prefix_app|]. intros Hs. by rewrite IH2.
      * rewrite about_press, decide_True by done.
        split; [|done]. by apply (prefix_app [Press btn]), prefix_nil.
      * rewrite about_press, decide_True by done.
        split; [|done]. by apply (prefix_app [Press btn]), prefix_nil.
    + rewrite (loop_body_up flags s data key btn Hlen Hkey Hbtn).
      destruct (flag flags key) eqn:Hf.
      2:{ cbn. specialize (IH flags s). by rewrite Hf in IH. }
      destruct (call_cases on_release Release btn s (<[key := false]> flags))
        as [[s' E']|[E'|E']]; rewrite E'; cbn [dispatched state_of].
      * specialize (IH (<[key := false]> flags) s').
        rewrite flag_insert_eq in IH. destruct IH as [IH1 IH2].
        rewrite about_app, about_release, decide_True by done.
        split; [by apply prefix_app|]. intros Hs. by rewrite IH2.
      * rewrite about_release, decide_True by done.
        split; [|done]. by apply (prefix_app [Release btn]), prefix_nil.
      * rewrite about_release, decide_True by done.
        split; [|done]. by apply (prefix_app [Release btn]), prefix_nil.
    + destruct (loop_body_other flags s (Report data) c key btn
                  Hbtn Hc Hd Hu) as [Hnone Hflag].
      destruct (body flags s (Report data)) as [flags' s' evs|s' evs|s' evs];
        cbn [dispatched state_of calls] in *.
      * specialize (IH flags' s'). rewrite (Hflag _ _ _ eq_refl) in IH.
        by rewrite about_app, Hnone.
      * rewrite Hnone. split; [apply prefix_nil|done].
      * rewrite Hnone. split; [apply prefix_nil|done].
  - destruct (code_None flags s r Hc) as [E|E]; rewrite E;
      cbn [dispatched state_of app].
    + apply IH.
    + split; [apply prefix_nil|done].
Qed.

Lemma initial_flags_released key btn :
  button key = Some btn → flag initial_flags key = false.
Proof.
  intros H. by destruct (button_cases _ _ H) as [[-> _]|[[-> _]|[-> _]]].
Qed.

(** A pass calls the press handler of a button only when its flag is
    false, and the release handler only when it is true. *)
Lemma press_needs_released flags s r key btn :
  button key = Some btn → Press btn ∈ calls (body flags s r) →
  flag flags key = false.
Proof.
  intros Hbtn.
  destruct (loop_body_cases flags s r)
    as [E|[E|[(k & b & Hc & Hb & Hf & E)|(k & b & Hc & Hb & Hf & E)]]];
    rewrite E.
  - cbn. by intros ?%elem_of_nil.
  - cbn. by intros ?%elem_of_nil.
  - rewrite calls_call. intros [= ->]%list_elem_of_singleton.
    by rewrite (button_inj _ _ _ Hbtn Hb).
  - rewrite calls_call. by intros ?%list_elem_of_singleton.
Qed.

Lemma release_needs_held flags s r key btn :
  button key = Some btn → Release btn ∈ calls (body flags s r) →
  flag flags key = true.
Proof.
  intros Hbtn.
  destruct (loop_body_cases flags s r)
    as [E|[E|[(k & b & Hc & Hb & Hf & E)|(k & b & Hc & Hb & Hf & E)]]];
    rewrite E.
  - cbn. by intros ?%elem_of_nil.
  - cbn. by intros ?%elem_of_nil.
  - rewrite calls_call. by intros ?%list_elem_of_singleton.
  - rewrite calls_call. intros [= ->]%list_elem_of_singleton.
    by rewrite (button_inj _ _ _ Hbtn Hb).
Qed.

(** C1.  For every sequence of reads of a listener started with all flags
    false, and for each of the three buttons: a report with the button's
    down code calls the press handler exactly when the stored flag is false
    and then sets the flag; while the flag is true the same report calls
    nothing and leaves the flags alone, however often it is repeated; a
    pass calls the press handler only when the flag is false; and along the
    whole run the number of press calls equals the number of times the flag
    went from false to true (a press call that raises ends the thread
    before the flag is set, and is the only call counted without a
    transition).  While the thread is polling, the calls about the button
    are exactly those of the button's state machine of the specification
    run on the codes read: one press per step from Released to Pressed. *)
Theorem press_once_per_transition (s : State) (reads : list read)
    (key : Z) (btn : string) :
  button key = Some btn →
  (∀ flags s0 data, (5 < length data)%nat → nth 5 data 0 = key →
     (flag flags key = false → ∀ s1, on_press btn s0 = Returns s1 →
        body flags s0 (Report data)
        = Next (<[key := true]> flags) s1 [Press btn])
     ∧ (flag flags key = true →
        body flags s0 (Report data) = Next flags s0 [])
     ∧ (flag flags key = true → ∀ n,
        dispatched (run_from flags s0 (replicate n (Report data))) = []
        ∧ last (flag_history (run_from flags s0 (replicate n (Report data))))
          = Some flags)
     ∧ (flag flags key = false → ∀ s1 n, on_press btn s0 = Returns s1 →
        dispatched (run_from flags s0 (replicate (S n) (Report data)))
        = [Press btn]))
  ∧ (∀ flags s0 r, Press btn ∈ calls (body flags s0 r) →
       flag flags key = false)
  ∧ count (Press btn) (dispatched (listen s reads))
    = (rising key (flag_history (listen s reads))
       + count (Press btn) (interrupted (listen s reads)))%nat
  ∧ (interrupted (listen s reads) = [] →
     count (Press btn) (dispatched (listen s reads))
     = rising key (flag_history (listen s reads)))
  ∧ (state_of (listen s reads) = Polling →
     about btn (dispatched (listen s reads))
     = spec_button_machine key btn false (omap code reads)).
Proof.
  intros Hbtn. split; [|split; [|split; [|split]]].
  - intros flags s0 data Hlen Hkey.
    pose proof (loop_body_down flags s0 data key btn Hlen Hkey Hbtn) as E.
    split; [|split; [|split]].
    + intros Hf s1 Hs1. rewrite E, Hf. cbn. by rewrite Hs1.
    + intros Hf. by rewrite E, Hf.
    + intros Hf n.
      destruct (loop_held flags s0 data key btn n Hlen Hkey Hbtn Hf)
        as (? & _ & ? & _). done.
    + intros Hf s1 n Hs1. cbn [replicate loop].
      rewrite E, Hf. cbn [call]. rewrite Hs1. cbn [dispatched app].
      destruct (loop_held (<[key := true]> flags) s1 data key btn n
                  Hlen Hkey Hbtn (flag_insert_eq _ _ _)) as (-> & _).
      done.
  - intros flags s0 r. by apply press_needs_released.
  - by apply loop_press_count.
  - intros Hi.
    pose proof (loop_press_count initial_flags s reads key btn Hbtn) as H.
    unfold monitor in Hi |- *. rewrite Hi in H. cbn in H. lia.
  - intros Hs.
    destruct (loop_refines initial_flags s reads key btn Hbtn) as [_ H].
    rewrite (initial_flags_released _ _ Hbtn) in H. by apply H.
Qed.

(** C2.  For every sequence of reads of a listener started with all flags
    false, and for each of the three buttons: a report with the button's up
    code (its down code plus one) calls the release handler exactly when
    the flag stored under the down code is true, and then clears that flag;
    when the flag is false it calls nothing and leaves the flag map as it
    is, however often it is repeated; a pass calls the release handler only
    when the flag is true; in every prefix of the calls of the run the
    releases of the button never outnumber its presses; and the calls about
    the button are always an initial part of what the button's state
    machine of the specification produces on the codes read, where a
    release only follows a press not yet released. *)
Theorem release_only_after_press (s : State) (reads : list read)
    (key : Z) (btn : string) :
  button key = Some btn →
  (∀ flags s0 data, (5 < length data)%nat → nth 5 data 0 = key + 1 →
     (flag flags key = true → ∀ s1, on_release btn s0 = Returns s1 →
        body flags s0 (Report data)
        = Next (<[key := false]> flags) s1 [Release btn]
        ∧ flag (<[key := false]> flags) key = false)
     ∧ (flag flags key = false →
        body flags s0 (Report data) = Next flags s0 [])
     ∧ (flag flags key = false → ∀ n,
        dispatched (run_from flags s0 (replicate n (Report data))) = []
        ∧ last (flag_history (run_from flags s0 (replicate n (Report data))))
          = Some flags))
  ∧ (∀ flags s0 r, Release btn ∈ calls (body flags s0 r) →
       flag flags key = true)
  ∧ (∀ n, count (Release btn) (take n (dispatched (listen s reads)))
          ≤ count (Press btn) (take n (dispatched (listen s reads))))%nat
  ∧ about btn (dispatched (listen s reads))
      `prefix_of` spec_button_machine key btn false (omap code reads).
Proof.
  intros Hbtn. split; [|split; [|split]].
  - intros flags s0 data Hlen Hkey.
    pose proof (loop_body_up flags s0 data key btn Hlen Hkey Hbtn) as E.
    split; [|split].
    + intros Hf s1 Hs1. rewrite E, Hf. cbn. rewrite Hs1.
      split; [done|apply flag_insert_eq].
    + intros Hf. by rewrite E, Hf.
    + intros Hf n.
      destruct (loop_released flags s0 data key btn n Hlen Hkey Hbtn Hf)
        as (? & _ & ? & _). done.
  - intros flags s0 r. by apply release_needs_held.
  - intros n.
    pose proof (loop_release_matched initial_flags s reads key btn n Hbtn) as H.
    rewrite (initial_flags_released _ _ Hbtn) in H. unfold monitor. lia.
  - destruct (loop_refines initial_flags s reads key btn Hbtn) as [H _].
    by rewrite (initial_flags_released _ _ Hbtn) in H.
Qed.

(** C3.  The event code is the byte at index 5 of a report longer than 5
    bytes.  Codes 33, 35 and 37 are the down codes of mic, search and side:
    on a released button they call the press handler of that button.  The
    up code of a button is its down code plus one (34, 36, 38): on a held
    button it calls the release handler of the same button.  On a fresh
    listener the codes 33, 33, 34 produce one press of mic followed by one
    release of mic. *)
Theorem report_code_mapping :
  button 33 = Some "mic" ∧ button 35 = Some "search"
  ∧ button 37 = Some "side"
  ∧ (∀ key btn flags s0 s1 data,
       button key = Some btn → (5 < length data)%nat →
       nth 5 data 0 = key → flag flags key = false →
       on_press btn s0 = Returns s1 →
       body flags s0 (Report data)
       = Next (<[key := true]> flags) s1 [Press btn])
  ∧ (∀ key btn flags s0 s1 data,
       button key = Some btn → (5 < length data)%nat →
       nth 5 data 0 = key + 1 → flag flags key = true →
       on_release btn s0 = Returns s1 →
       body flags s0 (Report data)
       = Next (<[key := false]> flags) s1 [Release btn])
  ∧ (∀ s0 s1 s2 d1 d2 d3,
       (5 < length d1)%nat → (5 < length d2)%nat → (5 < length d3)%nat →
       nth 5 d1 0 = 33 → nth 5 d2 0 = 33 → nth 5 d3 0 = 34 →
       on_press "mic" s0 = Returns s1 → on_release "mic" s1 = Returns s2 →
       dispatched (listen s0 [Report d1; Report d2; Report d3])
       = [Press "mic"; Release "mic"]
       ∧ final (listen s0 [Report d1; Report d2; Report d3]) = s2).
Proof.
  split; [done|]. split; [done|]. split; [done|]. split; [|split].
  - intros key btn flags s0 s1 data Hbtn Hlen Hkey Hf Hs1.
    rewrite (loop_body_down flags s0 data key btn Hlen Hkey Hbtn), Hf.
    cbn. by rewrite Hs1.
  - intros key btn flags s0 s1 data Hbtn Hlen Hkey Hf Hs1.
    rewrite (loop_body_up flags s0 data key btn Hlen Hkey Hbtn), Hf.
    cbn. by rewrite Hs1.
  - intros s0 s1 s2 d1 d2 d3 L1 L2 L3 K1 K2 K3 Hp Hr.
    unfold monitor. cbn [loop].
    rewrite (loop_body_down initial_flags s0 d1 33 "mic" L1 K1 eq_refl).
    change (flag initial_flags 33) with false. cbn [call]. rewrite Hp.
    rewrite (loop_body_down _ s1 d2 33 "mic" L2 K2 eq_refl).
    rewrite flag_insert_eq.
    rewrite (loop_body_up _ s1 d3 33 "mic" L3 K3 eq_refl).
    rewrite flag_insert_eq. cbn [call]. rewrite Hr. done.
Qed.

End ListenerFacts.

(** The listener of the program on a machine with speech recognition and
    no config file: mic held (with a repeated report), released (twice),
    held again. *)
Example monitor_mouse_trace :
  dispatched (monitor_mouse (startup None true Absent)
    [Report [1; 0; 0; 0; 0; 33]; Report [1; 0; 0; 0; 0; 33]; Report [];
     Report [1; 0; 0; 0; 0; 34]; Report [1; 0; 0; 0; 0; 34];
     Report [1; 0; 0; 0; 0; 33; 7]])
  = [Press "mic"; Release "mic"; Press "mic"].
Proof. vm_compute. reflexivity. Qed.

(** A press handler that raises ends the thread: the "keyboard" backend
    rejects the key combination configured for the side button. *)
Example monitor_mouse_handler_raises :
  dispatched (monitor_mouse
    (startup (Some {| send_accepts := λ _, false |}) true Absent)
    [Report [1; 0; 0; 0; 0; 37]; Report [1; 0; 0; 0; 0; 33]])
  = [Press "side"]
  ∧ state_of (monitor_mouse
      (startup (Some {| send_accepts := λ _, false |}) true Absent)
      [Report [1; 0; 0; 0; 0; 37]; Report [1; 0; 0; 0; 0; 33]])
    = Returned
  ∧ interrupted (monitor_mouse
      (startup (Some {| send_accepts := λ _, false |}) true Absent)
      [Report [1; 0; 0; 0; 0; 37]; Report [1; 0; 0; 0; 0; 33]])
    = [Press "side"].
Proof. repeat split; vm_compute; reflexivity. Qed.

Lemma press_once_per_transition_witness :
  button 33 = Some "mic"
  ∧ count (Press "mic")
      (dispatched (monitor_mouse (startup None true Absent)
         [Report [1; 0; 0; 0; 0; 33]; Report [1; 0; 0; 0; 0; 33];
          Report [1; 0; 0; 0; 0; 34]; Report [1; 0; 0; 0; 0; 33]]))
    = 2%nat.
Proof.
  split; [reflexivity|].
  pose proof (press_once_per_transition execute_button_press
    execute_button_release (startup None true Absent)
    [Report [1; 0; 0; 0; 0; 33]; Report [1; 0; 0; 0; 0; 33];
     Report [1; 0; 0; 0; 0; 34]; Report [1; 0; 0; 0; 0; 33]]
    33 "mic" eq_refl) as (_ & _ & _ & H & _).
  unfold monitor_mouse. rewrite H; reflexivity.
Defined.

Lemma release_only_after_press_witness :
  button 35 = Some "search"
  ∧ Nat.le
      (count (Release "search")
         (take 1 (dispatched (monitor_mouse (startup None true Absent)
            [Report [1; 0; 0; 0; 0; 36]; Report [1; 0; 0; 0; 0; 35];
             Report [1; 0; 0; 0; 0; 36]]))))
      (count (Press "search")
         (take 1 (dispatched (monitor_mouse (startup None true Absent)
            [Report [1; 0; 0; 0; 0; 36]; Report [1; 0; 0; 0; 0; 35];
             Report [1; 0; 0; 0; 0; 36]])))).
Proof.
  split; [reflexivity|].
  exact (proj1 (proj2 (proj2 (release_only_after_press execute_button_press
    execute_button_release (startup None true Absent)
    [Report [1; 0; 0; 0; 0; 36]; Report [1; 0; 0; 0; 0; 35];
     Report [1; 0; 0; 0; 0; 36]] 35 "search" eq_refl))) 1%nat).
Defined.

Lemma report_code_mapping_witness :
  dispatched (monitor_mouse (startup None true Absent)
    [Report [1; 2; 3; 4; 5; 33]; Report [1; 2; 3; 4; 5; 33];
     Report [1; 2; 3; 4; 5; 34]])
  = [Press "mic"; Release "mic"].
Proof.
  pose proof (report_code_mapping execute_button_press execute_button_release)
    as (_ & _ & _ & _ & _ & H).
  refine (proj1 (H (startup None true Absent) _ _
    [1; 2; 3; 4; 5; 33] [1; 2; 3; 4; 5; 33] [1; 2; 3; 4; 5; 34]
    _ _ _ eq_refl eq_refl eq_refl eq_refl eq_refl)); simpl; lia.
Defined.

(** ** Mouse speed and the DPI toggle *)

Lemma set_mouse_speed_int (z : Z) (g : globals) :
  set_mouse_speed (JInt z) g
  = Returns (emit (SystemParametersInfo (Z.max 1 (Z.min 20 z))) g).
Proof. reflexivity. Qed.

Example set_mouse_speed_samples :
  log <$> set_mouse_speed (JInt 0) (startup None false Absent)
    = Returns [SystemParametersInfo 1]
  ∧ log <$> set_mouse_speed (JInt 7) (startup None false Absent)
    = Returns [SystemParametersInfo 7]
  ∧ log <$> set_mouse_speed (JInt 25) (startup None false Absent)
    = Returns [SystemParametersInfo 20]
  ∧ set_mouse_speed JNull (startup None false Absent) = Raises TypeError.
Proof. repeat split; reflexivity. Qed.

(** C6.  For every integer input, [set_mouse_speed] calls the operating
    system with a speed in [1, 20]: 1 for inputs below 1, 20 for inputs
    above 20, the input itself otherwise.  Whatever the input, a call that
    returns has passed a speed in [1, 20]. *)
Theorem set_mouse_speed_clamped (z : Z) (g : globals) :
  set_mouse_speed (JInt z) g
  = Returns (emit (SystemParametersInfo
                     (if z <? 1 then 1 else if 20 <? z then 20 else z)) g)
  ∧ 1 ≤ (if z <? 1 then 1 else if 20 <? z then 20 else z) ≤ 20
  ∧ (∀ speed g', set_mouse_speed speed g = Returns g' →
       ∃ v, log g' = log g ++ [SystemParametersInfo v] ∧ 1 ≤ v ≤ 20).
Proof.
  split; [|split].
  - rewrite set_mouse_speed_int. do 3 f_equal.
    destruct (Z.ltb_spec z 1), (Z.ltb_spec 20 z); lia.
  - destruct (Z.ltb_spec z 1), (Z.ltb_spec 20 z); lia.
  - intros speed g'. unfold set_mouse_speed.
    destruct (Py.int speed) as [n| |]; cbn; [|done..].
    intros [= <-]. exists (Z.max 1 (Z.min 20 n)). split; [done|lia].
Qed.

Lemma set_mouse_speed_clamped_witness :
  ∃ v, log (emit (SystemParametersInfo 20) (startup None false Absent))
       = log (startup None false Absent) ++ [SystemParametersInfo v]
       ∧ 1 ≤ v ≤ 20.
Proof.
  exact (proj2 (proj2 (set_mouse_speed_clamped 0 (startup None false Absent)))
           (JInt 25) _ eq_refl).
Defined.

(** What one invocation of [toggle_dpi] does when the DPI value it needs is
    an integer. *)
Lemma toggle_dpi_from_normal g profile fast :
  ACTIVE_SETTINGS g = JObj profile →
  Py.int (default (JInt 18) (profile !! "dpi_fast")) = Returns fast →
  current_speed_mode g = "NORMAL" →
  toggle_dpi g
  = Returns (emit (Print "👉 DPI: FAST")
              (set_current_speed_mode "FAST"
                (emit (SystemParametersInfo (Z.max 1 (Z.min 20 fast))) g))).
Proof.
  intros HA Hf Hm. unfold toggle_dpi, set_mouse_speed. rewrite HA, Hm. cbn.
  rewrite Hf. reflexivity.
Qed.

Lemma toggle_dpi_from_fast g profile normal :
  ACTIVE_SETTINGS g = JObj profile →
  Py.int (default (JInt 10) (profile !! "dpi_normal")) = Returns normal →
  current_speed_mode g = "FAST" →
  toggle_dpi g
  = Returns (emit (Print "👉 DPI: NORMAL")
              (set_current_speed_mode "NORMAL"
                (emit (SystemParametersInfo (Z.max 1 (Z.min 20 normal))) g))).
Proof.
  intros HA Hf Hm. unfold toggle_dpi, set_mouse_speed. rewrite HA, Hm. cbn.
  rewrite Hf. reflexivity.
Qed.

(** The mode after [n] invocations. *)
Lemma toggle_dpi_successive n g profile fast normal :
  ACTIVE_SETTINGS g = JObj profile →
  Py.int (default (JInt 18) (profile !! "dpi_fast")) = Returns fast →
  Py.int (default (JInt 10) (profile !! "dpi_normal")) = Returns normal →
  current_speed_mode g = "NORMAL" ∨ current_speed_mode g = "FAST" →
  ∃ g', successive n toggle_dpi g = Returns g'
        ∧ ACTIVE_SETTINGS g' = ACTIVE_SETTINGS g
        ∧ current_speed_mode g' =
            if Nat.even n then current_speed_mode g
            else if bool_decide (current_speed_mode g = "NORMAL")
                 then "FAST" else "NORMAL".
Proof.
  intros HA Hf Hn. revert g HA.
  induction n as [n IH] using (well_founded_induction lt_wf).
  intros g HA Hm. destruct n as [|[|n]].
  - exists g. done.
  - destruct Hm as [Hm|Hm]; cbn [successive].
    + rewrite (toggle_dpi_from_normal _ _ _ HA Hf Hm). cbn.
      eexists. split; [done|]. by rewrite Hm.
    + rewrite (toggle_dpi_from_fast _ _ _ HA Hn Hm). cbn.
      eexists. split; [done|]. by rewrite Hm.
  - destruct Hm as [Hm|Hm]; cbn [successive].
    + rewrite (toggle_dpi_from_normal _ _ _ HA Hf Hm). cbn.
      rewrite (toggle_dpi_from_fast _ profile normal); [|done..]. cbn.
      edestruct (IH n) as (g' & -> & HA' & Hm'); [lia|..].
      * exact HA.
      * by left.
      * exists g'. split; [done|]. split; [done|].
        rewrite Hm'. cbn [Nat.even current_speed_mode]. by rewrite Hm.
    + rewrite (toggle_dpi_from_fast _ _ _ HA Hn Hm). cbn.
      rewrite (toggle_dpi_from_normal _ profile fast); [|done..]. cbn.
      edestruct (IH n) as (g' & -> & HA' & Hm'); [lia|..].
      * exact HA.
      * by right.
      * exists g'. split; [done|]. split; [done|].
        rewrite Hm'. cbn [Nat.even current_speed_mode]. by rewrite Hm.
Qed.

Example toggle_dpi_twice :
  log <$> successive 2 toggle_dpi (startup None false Absent)
  = Returns [SystemParametersInfo 18; Print "👉 DPI: FAST";
             SystemParametersInfo 10; Print "👉 DPI: NORMAL"].
Proof. reflexivity. Qed.

(** C5.  With integer DPI values in the active profile, [toggle_dpi]
    alternates between the two speed modes: from NORMAL it passes the
    profile's [dpi_fast] (18 when the key is missing) to [set_mouse_speed]
    and the mode becomes FAST; from FAST it passes [dpi_normal] (10 when
    missing) and the mode becomes NORMAL.  Two successive invocations bring
    the mode back, no invocation leaves the state as it is, and after [n]
    invocations the mode is the starting one exactly when [n] is even. *)
Theorem toggle_dpi_alternates g profile fast normal :
  ACTIVE_SETTINGS g = JObj profile →
  Py.int (default (JInt 18) (profile !! "dpi_fast")) = Returns fast →
  Py.int (default (JInt 10) (profile !! "dpi_normal")) = Returns normal →
  (current_speed_mode g = "NORMAL" →
     ∃ g', toggle_dpi g = Returns g'
           ∧ current_speed_mode g' = "FAST"
           ∧ log g' = log g ++ [SystemParametersInfo (Z.max 1 (Z.min 20 fast));
                                Print "👉 DPI: FAST"])
  ∧ (current_speed_mode g = "FAST" →
     ∃ g', toggle_dpi g = Returns g'
           ∧ current_speed_mode g' = "NORMAL"
           ∧ log g' = log g ++ [SystemParametersInfo (Z.max 1 (Z.min 20 normal));
                                Print "👉 DPI: NORMAL"])
  ∧ successive 0 toggle_dpi g = Returns g
  ∧ (current_speed_mode g = "NORMAL" ∨ current_speed_mode g = "FAST" →
     (∃ g', successive 2 toggle_dpi g = Returns g'
            ∧ current_speed_mode g' = current_speed_mode g)
     ∧ ∀ n, ∃ g', successive n toggle_dpi g = Returns g'
            ∧ (current_speed_mode g' = current_speed_mode g ↔ Nat.even n = true)).
Proof.
  intros HA Hf Hn. split; [|split; [|split]].
  - intros Hm. rewrite (toggle_dpi_from_normal _ _ _ HA Hf Hm).
    eexists. split; [done|]. split; [done|]. cbn. by rewrite <- app_assoc.
  - intros Hm. rewrite (toggle_dpi_from_fast _ _ _ HA Hn Hm).
    eexists. split; [done|]. split; [done|]. cbn. by rewrite <- app_assoc.
  - reflexivity.
  - intros Hmode. split.
    + destruct (toggle_dpi_successive 2 g profile fast normal)
        as (g' & ? & _ & ?); eauto.
    + intros n.
      destruct (toggle_dpi_successive n g profile fast normal)
        as (g' & ? & _ & Hm'); [done..|].
      exists g'. split; [done|]. rewrite Hm'.
      destruct (Nat.even n); [done|].
      destruct Hmode as [Hm|Hm]; rewrite Hm; cbn; split; done.
Qed.

Lemma toggle_dpi_alternates_witness :
  ∃ g', toggle_dpi (startup None false Absent) = Returns g'
        ∧ current_speed_mode g' = "FAST"
        ∧ log g' = [SystemParametersInfo 18; Print "👉 DPI: FAST"].
Proof.
  exact (proj1 (toggle_dpi_alternates (startup None false Absent)
                  DEFAULT_PROFILE 18 10 eq_refl eq_refl eq_refl) eq_refl).
Defined.

(** ** Voice capture *)

(** C10.  [stop_voice_recording] does nothing when the capture flag is
    already false, always leaves the flag false, and doing it twice is the
    same as doing it once. *)
Theorem stop_voice_recording_idempotent (g : globals) :
  (MIC_IS_HELD g = false → stop_voice_recording g = g)
  ∧ MIC_IS_HELD (stop_voice_recording g) = false
  ∧ stop_voice_recording (stop_voice_recording g) = stop_voice_recording g.
Proof.
  unfold stop_voice_recording.
  destruct (MIC_IS_HELD g) eqn:E; cbn; rewrite ?E; done.
Qed.

Lemma stop_voice_recording_idempotent_witness :
  stop_voice_recording (startup None true Absent) = startup None true Absent.
Proof.
  exact (proj1 (stop_voice_recording_idempotent (startup None true Absent))
           eq_refl).
Defined.

(** ** Loading and saving the configuration *)

Lemma read_config_no_document g :
  disk g = Absent ∨ disk g = Garbled → read_config g = GLOBAL_CONFIG g.
Proof. unfold read_config. by intros [-> | ->]. Qed.

Lemma read_config_document g (cfg : gmap string json) :
  disk g = Document (JObj cfg) → is_Some (cfg !! "profiles") →
  read_config g = JObj cfg.
Proof.
  unfold read_config. intros -> H. cbn.
  by rewrite bool_decide_eq_true_2.
Qed.

(** [load_config] on a configuration whose [profiles] entry is a dictionary
    and whose [active_profile] entry, if any, is a string. *)
Lemma load_config_dict g (cfg profiles : gmap string json) (active : string) :
  read_config g = JObj cfg →
  cfg !! "profiles" = Some (JObj profiles) →
  default (JStr "Mode A") (cfg !! "active_profile") = JStr active →
  load_config g = Returns
    match profiles !! active with
    | Some settings =>
        set_ACTIVE_SETTINGS settings (set_GLOBAL_CONFIG (JObj cfg) g)
    | None =>
        set_ACTIVE_SETTINGS (JObj DEFAULT_PROFILE)
          (set_GLOBAL_CONFIG
             (JObj (<["active_profile" := JStr active]>
                   (<["profiles" :=
                        JObj (<[active := JObj DEFAULT_PROFILE]> profiles)]>
                      cfg))) g)
    end.
Proof.
  intros Hr Hp Ha. unfold load_config. rewrite Hr. cbn. rewrite Ha, Hp. cbn.
  destruct (profiles !! active) as [settings|] eqn:E.
  - rewrite bool_decide_eq_true_2 by done. cbn. rewrite Hp. cbn.
    by rewrite E.
  - rewrite bool_decide_eq_false_2 by (by intros [? ?]). cbn.
    rewrite lookup_insert_ne by done. rewrite lookup_insert_eq. cbn.
    by rewrite lookup_insert_eq.
Qed.

(** C7.  On a machine without a config file (or with one that does not
    parse), [load_config] at startup returns normally, prints nothing and
    leaves the configuration at its default: the active profile is
    "Mode A", it exists, and it holds [dpi_fast] 18, [dpi_normal] 10 and
    the three default button configs. *)
Theorem load_config_without_file (kb : option keyboard_module) (speech : bool) :
  load_config (startup kb speech Absent) = Returns (startup kb speech Absent)
  ∧ load_config (startup kb speech Garbled) = Returns (startup kb speech Garbled)
  ∧ log (startup kb speech Absent) = []
  ∧ getitem (GLOBAL_CONFIG (startup kb speech Absent)) (JStr "active_profile")
    = Returns (JStr "Mode A")
  ∧ (profiles ← getitem (GLOBAL_CONFIG (startup kb speech Absent))
                        (JStr "profiles");
     getitem profiles (JStr "Mode A"))
    = Returns (ACTIVE_SETTINGS (startup kb speech Absent))
  ∧ ACTIVE_SETTINGS (startup kb speech Absent) = JObj DEFAULT_PROFILE
  ∧ DEFAULT_PROFILE !! "dpi_fast" = Some (JInt 18)
  ∧ DEFAULT_PROFILE !! "dpi_normal" = Some (JInt 10)
  ∧ DEFAULT_PROFILE !! "mic" = Some (button_config "voice_typing" "")
  ∧ DEFAULT_PROFILE !! "search"
    = Some (button_config "open_url" "https://www.google.com")
  ∧ DEFAULT_PROFILE !! "side" = Some (button_config "key_press" "alt+left")
  ∧ dom DEFAULT_PROFILE
    = {["mic"; "search"; "side"; "dpi_fast"; "dpi_normal"]}.
Proof.
  repeat split; reflexivity.
Qed.

(** The whole start of the program on such a machine: the window opens on
    the default configuration. *)
Example main_without_file :
  ∃ app, main (startup None false Absent)
         = Returns (app, startup None false Absent)
         ∧ profile_var app = "Mode A"
         ∧ (rows app).*1 = ["mic"; "search"; "side"].
Proof. eexists. split; [vm_compute; reflexivity|]. split; reflexivity. Qed.

(** Inversion of the Python operations used with literal keys. *)
Lemma bind_Returns {A B} (m : outcome A) (f : A → outcome B) (b : B) :
  m ≫= f = Returns b → ∃ a, m = Returns a ∧ f a = Returns b.
Proof. destruct m as [a| |]; cbn; [eauto|done..]. Qed.

Lemma getitem_str_Returns container (s : string) v :
  getitem container (JStr s) = Returns v →
  ∃ o, container = JObj o ∧ o !! s = Some v.
Proof.
  destruct container as [| | | |l|o]; cbn; try done.
  destruct (o !! s) eqn:E; [|done]. intros [= <-]. eauto.
Qed.

(** C4.  Saving a configuration and loading the file again gives back what
    was saved.  For a configuration [g] whose [profiles] entry is a
    dictionary and whose [active_profile] entry is a string: a successful
    [save_config] stores it, and [load_config], run by any process [g0]
    that finds this file, returns with every saved profile unchanged under
    its name and with the same active profile name; when the active profile
    is one of the saved profiles, as it is whenever the program saves, the
    whole configuration loaded is the one saved.  Dictionaries are compared
    by their entries, so the order of fields plays no role. *)
Theorem save_then_load_round_trip (g g0 : globals)
    (cfg profiles : gmap string json) (active : string) :
  GLOBAL_CONFIG g = JObj cfg →
  cfg !! "profiles" = Some (JObj profiles) →
  default (JStr "Mode A") (cfg !! "active_profile") = JStr active →
  disk g0 = disk (save_config true g).1 →
  (save_config true g).2 = true
  ∧ disk (save_config true g).1 = Document (GLOBAL_CONFIG g)
  ∧ ∃ g' cfg' profiles',
      load_config g0 = Returns g'
      ∧ GLOBAL_CONFIG g' = JObj cfg'
      ∧ cfg' !! "profiles" = Some (JObj profiles')
      ∧ default (JStr "Mode A") (cfg' !! "active_profile") = JStr active
      ∧ (∀ name profile, profiles !! name = Some profile →
           profiles' !! name = Some profile)
      ∧ (∀ settings, profiles !! active = Some settings →
           GLOBAL_CONFIG g' = GLOBAL_CONFIG g
           ∧ profiles' = profiles
           ∧ ACTIVE_SETTINGS g' = settings).
Proof.
  intros Hg Hp Ha Hd. split; [done|]. split; [done|].
  cbn in Hd. rewrite Hg in Hd.
  pose proof (read_config_document g0 cfg Hd (ltac:(by rewrite Hp))) as Hr.
  pose proof (load_config_dict g0 cfg profiles active Hr Hp Ha) as Hl.
  destruct (profiles !! active) as [settings|] eqn:E.
  - eexists _, cfg, profiles. split; [exact Hl|].
    repeat split; try done. cbn. congruence.
  - eexists _, _, _. split; [exact Hl|]. split; [done|].
    split; [by rewrite lookup_insert_ne, lookup_insert_eq|].
    split; [by rewrite lookup_insert_eq|].
    split; [|done].
    intros name profile Hn. rewrite lookup_insert_ne; [done|congruence].
Qed.

Lemma save_then_load_round_trip_witness :
  ∃ g', load_config (startup None false (Document (JObj two_profiles)))
        = Returns g'
        ∧ GLOBAL_CONFIG g' = JObj two_profiles
        ∧ ACTIVE_SETTINGS g' = JObj work_profile.
Proof.
  destruct (save_then_load_round_trip work_globals
              (startup None false (Document (JObj two_profiles)))
              two_profiles
              (<["Mode A" := JObj DEFAULT_PROFILE]>
                 (<["Work" := JObj work_profile]> ∅))
              "Work" eq_refl eq_refl eq_refl eq_refl)
    as (_ & _ & g' & cfg' & profiles' & Hl & _ & _ & _ & _ & H).
  exists g'. split; [exact Hl|].
  destruct (H (JObj work_profile) eq_refl) as (? & _ & ?). done.
Defined.

(** ** Saving from the settings window *)

Lemma get_ui_data_dpi row data d :
  get_ui_data row = Returns (data, Some d) →
  is_Some (d !! "dpi_fast") ∧ is_Some (d !! "dpi_normal").
Proof.
  unfold get_ui_data. case_bool_decide; [|done].
  destruct (IntVar_get (dpi_fast_var row)) as [f| |]; cbn; [|done..].
  destruct (IntVar_get (dpi_normal_var row)) as [n| |]; cbn; [|done..].
  intros [= _ <-]. split; [by rewrite lookup_insert_eq|].
  by rewrite lookup_insert_ne, lookup_insert_eq.
Qed.

(** The loop over the rows writes one entry per row and keeps both DPI
    keys. *)
Lemma collect_Returns items new_data dpi new_data' dpi' :
  collect items new_data dpi = Returns (new_data', dpi') →
  (∀ key, key ∈ items.*1 ∨ is_Some (new_data !! key) →
          is_Some (new_data' !! key))
  ∧ (is_Some (dpi !! "dpi_fast") ∧ is_Some (dpi !! "dpi_normal") →
     is_Some (dpi' !! "dpi_fast") ∧ is_Some (dpi' !! "dpi_normal")).
Proof.
  revert new_data dpi.
  induction items as [|[key row] items IH]; intros new_data dpi; cbn.
  - intros [= <- <-]. split; [|done].
    intros key [H|H]; [by apply elem_of_nil in H|done].
  - intros H. apply bind_Returns in H as ([btn_data row_dpi] & Hu & H).
    apply IH in H as [Hk Hd]. split.
    + intros k [Hin|Hin]; apply Hk.
      * apply elem_of_cons in Hin as [->|Hin]; [right|by left].
        by rewrite lookup_insert_eq.
      * right. destruct (decide (key = k)) as [->|];
          [by rewrite lookup_insert_eq|by rewrite lookup_insert_ne].
    + intros Hdpi. apply Hd.
      destruct row_dpi as [d|]; [|done].
      destruct (negb (bool_decide (d = ∅))); [|done].
      by eapply get_ui_data_dpi.
Qed.

(** What a call of [save_all] that returns has done. *)
Lemma save_all_Returns writable app g g' :
  save_all writable app g = Returns g' →
  ∃ cfg profiles final,
    GLOBAL_CONFIG g = JObj cfg
    ∧ cfg !! "profiles" = Some (JObj profiles)
    ∧ is_Some (profiles !! profile_var app)
    ∧ (∀ key, key ∈ (rows app).*1 → is_Some (final !! key))
    ∧ is_Some (final !! "dpi_fast") ∧ is_Some (final !! "dpi_normal")
    ∧ GLOBAL_CONFIG g'
      = JObj (<["active_profile" := JStr (profile_var app)]>
             (<["profiles" :=
                  JObj (<[profile_var app := JObj final]> profiles)]> cfg))
    ∧ ACTIVE_SETTINGS g' = JObj final
    ∧ disk g' = if writable then Document (GLOBAL_CONFIG g') else disk g.
Proof.
  unfold save_all. intros H.
  apply bind_Returns in H as (ps & H1 & H).
  apply getitem_str_Returns in H1 as (cfg & Hcfg & Hps).
  apply bind_Returns in H as (current_data & H2 & H).
  apply getitem_str_Returns in H2 as (profiles & -> & Hcur).
  apply bind_Returns in H as (fast & H3 & H).
  apply bind_Returns in H as (normal & H4 & H).
  apply bind_Returns in H as ([new_data dpi] & H5 & H).
  apply collect_Returns in H5 as [Hkeys Hdpi].
  destruct Hdpi as [Hfast Hnormal].
  { split; [by rewrite lookup_insert_eq|].
    by rewrite lookup_insert_ne, lookup_insert_eq. }
  rewrite Hcfg in H. cbn in H.
  exists cfg, profiles, (dpi ∪ new_data).
  assert (∀ key, key ∈ (rows app).*1 → is_Some ((dpi ∪ new_data) !! key))
    as Hall.
  { intros key Hin. destruct (Hkeys key (or_introl Hin)) as [v Hv].
    rewrite lookup_union. rewrite Hv. by destruct (dpi !! key). }
  assert (is_Some ((dpi ∪ new_data) !! "dpi_fast")
          ∧ is_Some ((dpi ∪ new_data) !! "dpi_normal")) as [? ?].
  { destruct Hfast as [? Hf], Hnormal as [? Hn].
    by rewrite !lookup_union, Hf, Hn, !union_Some_l. }
  destruct writable; cbn in H.
  - unfold set_mouse_speed in H.
    destruct (Py.int (default (JInt 10) ((dpi ∪ new_data) !! "dpi_normal")))
      as [n| |]; cbn in H; [|done..].
    injection H as <-. by repeat split.
  - injection H as <-. by repeat split.
Qed.

(** A configuration saved from the window is loaded back whole. *)
Lemma save_all_then_load app g g1 g0 :
  save_all true app g = Returns g1 →
  disk g0 = disk g1 →
  ∃ g2, load_config g0 = Returns g2
        ∧ GLOBAL_CONFIG g2 = GLOBAL_CONFIG g1
        ∧ ACTIVE_SETTINGS g2 = ACTIVE_SETTINGS g1.
Proof.
  intros (cfg & profiles & final & _ & _ & _ & _ & _ & _ & Hg & Ha & Hd)
    %save_all_Returns Hd0.
  rewrite Hd, Hg in Hd0.
  pose proof (load_config_dict g0 _
    (<[profile_var app := JObj final]> profiles) (profile_var app)
    (read_config_document g0 _ Hd0
       ltac:(by rewrite lookup_insert_ne, lookup_insert_eq))
    ltac:(by rewrite lookup_insert_ne, lookup_insert_eq)
    ltac:(by rewrite lookup_insert_eq)) as Hl.
  rewrite lookup_insert_eq in Hl.
  eexists. split; [exact Hl|]. by rewrite Hg, Ha.
Qed.

(** ** Showing a profile in the window *)

Lemma load_data_typed row data :
  button_key row ∈ ["mic"; "search"; "side"] →
  typed_profile data = true →
  ∃ row', load_data row data = Returns row'
          ∧ button_key row' = button_key row.
Proof.
  intros Hkey Ht. destruct data as [| | | | |o]; try done.
  cbn in Ht. repeat (apply andb_prop in Ht as [Ht ?]).
  assert (typed_button (default (JObj ∅) (o !! button_key row)) = true) as Hb.
  { rewrite !elem_of_cons, elem_of_nil in Hkey.
    destruct Hkey as [->|[->|[->|[]]]]; done. }
  unfold load_data. cbn.
  destruct (default (JObj ∅) (o !! button_key row)) as [| | | | |b];
    try done.
  cbn in Hb. apply andb_prop in Hb as [Ha Hp]. cbn.
  destruct (b !! "action") as [[]|]; try done;
    destruct (b !! "param") as [[]|]; try done;
    destruct (o !! "dpi_fast") as [[]|]; try done;
    destruct (o !! "dpi_normal") as [[]|]; try done;
    cbn; eauto.
Qed.

(** A profile with well-typed fields can be shown by the three rows. *)
Lemma load_rows_typed items data :
  three_rows items → typed_profile data = true →
  ∃ items', load_rows items data = Returns items' ∧ three_rows items'.
Proof.
  intros [Hkeys Hrows] Ht.
  assert (Forall (λ item : string * ButtonConfigRow,
            button_key item.2 ∈ ["mic"; "search"; "side"]) items) as Hin.
  { apply Forall_forall. intros [k row] Hi.
    rewrite Forall_forall in Hrows. rewrite (Hrows _ Hi). cbn.
    rewrite <- Hkeys. apply list_elem_of_fmap. by exists (k, row). }
  assert (∃ items', load_rows items data = Returns items'
            ∧ items'.*1 = items.*1
            ∧ Forall (λ item, button_key item.2 = item.1) items')
    as (items' & ? & ? & ?); [|exists items'; split; [done|split; congruence]].
  clear Hkeys.
  induction items as [|[k row] items IH]; [by exists []|].
  apply Forall_cons in Hrows as [Hk Hrows].
  apply Forall_cons in Hin as [Hi Hin].
  destruct (load_data_typed row data Hi Ht) as (row' & Hr & Hk').
  destruct (IH Hrows Hin) as (items' & Hl & Hfst & Hall).
  cbn. rewrite Hr. cbn. rewrite Hl. cbn.
  eexists. split; [done|]. split; [by cbn; rewrite Hfst|].
  apply Forall_cons. split; [cbn in *; congruence|done].
Qed.

(** ** Deleting a profile *)

(** A confirmed deletion, given what the rows show afterwards. *)
Lemma del_profile_confirmed app g (cfg profiles : gmap string json) items :
  profile_var app ≠ "Mode A" →
  GLOBAL_CONFIG g = JObj cfg →
  cfg !! "profiles" = Some (JObj profiles) →
  is_Some (profiles !! profile_var app) →
  load_rows (rows app) (default (JObj DEFAULT_PROFILE) (profiles !! "Mode A"))
  = Returns items →
  del_profile true app g
  = Returns
      ({| profile_var := "Mode A"; rows := items |},
       set_GLOBAL_CONFIG
         (JObj (<["active_profile" := JStr "Mode A"]>
               (<["profiles" := JObj (delete (profile_var app) profiles)]>
                  cfg)))
         g).
Proof.
  intros Hname Hg Hp [profile Hsel] Hrows.
  unfold del_profile. rewrite bool_decide_eq_false_2 by done.
  rewrite Hg. cbn. rewrite Hp. cbn. rewrite Hsel. cbn.
  unfold change_profile, load_profile_to_gui. cbn.
  rewrite lookup_insert_eq. cbn.
  rewrite lookup_delete_ne by done. rewrite Hrows. reflexivity.
Qed.

(** C8.  [del_profile] refuses to delete "Mode A": it shows an error and
    leaves the configuration and the window as they are, whatever the
    answer to the confirmation would be.  For any other selected profile
    that exists, once confirmed, in a window with its three rows and with
    a well-typed profile to show for "Mode A", it removes that profile and
    no other from the mapping, selects "Mode A" in the window and makes it
    the active profile.  Without confirmation nothing changes. *)
Theorem del_profile_keeps_default :
  (∀ confirmed app g,
     profile_var app = "Mode A" →
     del_profile confirmed app g
     = Returns (app, emit (ShowError "錯誤" "無法刪除預設模式") g)
     ∧ GLOBAL_CONFIG (emit (ShowError "錯誤" "無法刪除預設模式") g)
       = GLOBAL_CONFIG g)
  ∧ (∀ app g (cfg profiles : gmap string json),
       profile_var app ≠ "Mode A" →
       GLOBAL_CONFIG g = JObj cfg →
       cfg !! "profiles" = Some (JObj profiles) →
       is_Some (profiles !! profile_var app) →
       three_rows (rows app) →
       typed_profile (default (JObj DEFAULT_PROFILE) (profiles !! "Mode A"))
       = true →
       ∃ items,
         del_profile true app g
         = Returns
             ({| profile_var := "Mode A"; rows := items |},
              set_GLOBAL_CONFIG
                (JObj (<["active_profile" := JStr "Mode A"]>
                      (<["profiles" :=
                           JObj (delete (profile_var app) profiles)]> cfg)))
                g)
         ∧ three_rows items
         ∧ delete (profile_var app) profiles !! profile_var app = None
         ∧ ∀ other, other ≠ profile_var app →
             delete (profile_var app) profiles !! other = profiles !! other)
  ∧ (∀ app g, profile_var app ≠ "Mode A" →
       del_profile false app g = Returns (app, g)).
Proof.
  split; [|split].
  - intros confirmed app g Hname. unfold del_profile.
    by rewrite bool_decide_eq_true_2.
  - intros app g cfg profiles Hname Hg Hp Hsel Hrows Ht.
    destruct (load_rows_typed _ _ Hrows Ht) as (items & Hl & Hitems).
    exists items. split; [by apply del_profile_confirmed|].
    split; [done|]. split; [apply lookup_delete_eq|].
    intros other Hne. by apply lookup_delete_ne.
  - intros app g Hname. unfold del_profile.
    by rewrite bool_decide_eq_false_2.
Qed.

Lemma del_profile_keeps_default_witness :
  ∃ items,
    del_profile true work_window work_globals
    = Returns
        ({| profile_var := "Mode A"; rows := items |},
         set_GLOBAL_CONFIG
           (JObj (<["active_profile" := JStr "Mode A"]>
                 (<["profiles" :=
                      JObj (<["Mode A" := JObj DEFAULT_PROFILE]> ∅)]> ∅)))
           work_globals).
Proof.
  destruct (proj1 (proj2 del_profile_keeps_default) work_window work_globals
    two_profiles
    (<["Mode A" := JObj DEFAULT_PROFILE]> (<["Work" := JObj work_profile]> ∅))
    ltac:(done) eq_refl eq_refl ltac:(by eexists)
    ltac:(split; [reflexivity|by repeat constructor]) eq_refl)
    as (items & H & _).
  exists items. rewrite H. reflexivity.
Defined.

(** ** Button keys of the stored profiles *)

(** C9, as stated, fails: [load_config] returns normally on a config file
    whose profile "Mode A" holds no button key, and the profile it has
    loaded, which is also the active one, still holds none. *)
Lemma load_config_keeps_sparse_profile :
  (g ← load_config (startup None false (Document sparse_document));
   Returns (every_profile_populated (GLOBAL_CONFIG g),
            populated (ACTIVE_SETTINGS g),
            ACTIVE_SETTINGS g))
  = Returns (false, false,
             JObj (<["dpi_fast" := JInt 5]> (<["dpi_normal" := JInt 3]> ∅))).
Proof. vm_compute. reflexivity. Qed.

(** C9, amended.  [load_config] keeps every profile it reads as it is
    stored, adding no button key; the profiles the program itself writes
    hold all three button keys: the default profile that [load_config]
    puts under an active name missing from the mapping, and the profile
    that [save_all] stores for the selected name (which also holds both
    DPI keys).  A button key missing from the active profile is defaulted
    where it is looked up: the dispatcher takes the empty config and does
    nothing on press and on release. *)
Theorem written_profiles_are_populated :
  (∀ g (cfg profiles : gmap string json) (active : string),
     read_config g = JObj cfg →
     cfg !! "profiles" = Some (JObj profiles) →
     default (JStr "Mode A") (cfg !! "active_profile") = JStr active →
     ∃ g' cfg' profiles',
       load_config g = Returns g'
       ∧ GLOBAL_CONFIG g' = JObj cfg'
       ∧ cfg' !! "profiles" = Some (JObj profiles')
       ∧ (∀ name, name ≠ active → profiles' !! name = profiles !! name)
       ∧ (∀ settings, profiles !! active = Some settings →
            profiles' !! active = Some settings
            ∧ ACTIVE_SETTINGS g' = settings)
       ∧ (profiles !! active = None →
            profiles' !! active = Some (JObj DEFAULT_PROFILE)
            ∧ ACTIVE_SETTINGS g' = JObj DEFAULT_PROFILE))
  ∧ populated (JObj DEFAULT_PROFILE) = true
  ∧ (∀ writable app g g',
       (rows app).*1 = ["mic"; "search"; "side"] →
       save_all writable app g = Returns g' →
       populated (ACTIVE_SETTINGS g') = true
       ∧ (profiles ← getitem (GLOBAL_CONFIG g') (JStr "profiles");
          getitem profiles (JStr (profile_var app)))
         = Returns (ACTIVE_SETTINGS g')
       ∧ ∃ final, ACTIVE_SETTINGS g' = JObj final
                  ∧ is_Some (final !! "dpi_fast")
                  ∧ is_Some (final !! "dpi_normal"))
  ∧ (∀ g (profile : gmap string json) btn_key,
       ACTIVE_SETTINGS g = JObj profile → profile !! btn_key = None →
       execute_button_press btn_key g = Returns g
       ∧ execute_button_release btn_key g = Returns g).
Proof.
  split; [|split; [done|split]].
  - intros g cfg profiles active Hr Hp Ha.
    pose proof (load_config_dict g cfg profiles active Hr Hp Ha) as Hl.
    destruct (profiles !! active) as [settings|] eqn:E.
    + eexists _, cfg, profiles. split; [exact Hl|].
      split; [done|]. split; [done|]. split; [done|].
      split; [|done]. by intros ? [= <-].
    + eexists _, _, _. split; [exact Hl|]. split; [done|].
      split; [by rewrite lookup_insert_ne, lookup_insert_eq|].
      split; [intros name Hne; by rewrite lookup_insert_ne|].
      split; [done|]. intros _. by rewrite lookup_insert_eq.
  - intros writable app g g' Hrows
      (cfg & profiles & final & _ & _ & _ & Hkeys & ? & ? & Hg & Ha & _)
      %save_all_Returns.
    rewrite Hrows in Hkeys. rewrite Hg, Ha. split; [|split].
    + cbn. rewrite !bool_decide_eq_true_2; [done|apply Hkeys; set_solver..].
    + cbn. rewrite lookup_insert_ne by done. rewrite lookup_insert_eq. cbn.
      by rewrite lookup_insert_eq.
    + by exists final.
  - intros g profile btn_key Ha Hb.
    unfold execute_button_press, execute_button_release.
    rewrite Ha. cbn. by rewrite Hb.
Qed.

Lemma written_profiles_are_populated_witness :
  execute_button_press "mic"
    (set_ACTIVE_SETTINGS
       (JObj (<["dpi_fast" := JInt 5]> (<["dpi_normal" := JInt 3]> ∅)))
       (startup None true Absent))
  = Returns
      (set_ACTIVE_SETTINGS
         (JObj (<["dpi_fast" := JInt 5]> (<["dpi_normal" := JInt 3]> ∅)))
         (startup None true Absent)).
Proof.
  exact (proj1 (proj2 (proj2 (proj2 written_profiles_are_populated))
    (set_ACTIVE_SETTINGS
       (JObj (<["dpi_fast" := JInt 5]> (<["dpi_normal" := JInt 3]> ∅)))
       (startup None true Absent))
    (<["dpi_fast" := JInt 5]> (<["dpi_normal" := JInt 3]> ∅))
    "mic" eq_refl eq_refl)).
Defined.

(** * Further properties *)

(** ** [load_config] *)

(** Where the [try] block leaves [GLOBAL_CONFIG], for every process that
    finds the same disk: at the document on disk, or untouched. *)
Lemma read_config_cases g :
  (∃ data, disk g = Document data
           ∧ ∀ g2, disk g2 = disk g → read_config g2 = data)
  ∨ (∀ g2, disk g2 = disk g → read_config g2 = GLOBAL_CONFIG g2).
Proof.
  unfold read_config. destruct (disk g) as [| |data] eqn:Hd;
    [right; by intros g2 ->..|].
  destruct (contains data (JStr "profiles")) as [[]| |] eqn:Hc;
    [|right; intros g2 ->; by rewrite Hc..].
  left. exists data. split; [done|]. intros g2 ->. by rewrite Hc.
Qed.

(** A call of [load_config] that returns has read a dictionary whose
    [profiles] entry is a dictionary, with a string for active profile. *)
Lemma load_config_Returns g g' :
  load_config g = Returns g' →
  ∃ (cfg profiles : gmap string json) (active : string),
    read_config g = JObj cfg
    ∧ cfg !! "profiles" = Some (JObj profiles)
    ∧ default (JStr "Mode A") (cfg !! "active_profile") = JStr active.
Proof.
  unfold load_config. cbn [GLOBAL_CONFIG set_GLOBAL_CONFIG].
  destruct (read_config g) as [| | | |l|cfg]; try done. cbn.
  destruct (cfg !! "profiles") as [ps|] eqn:Hp; [|done]. cbn.
  destruct (default (JStr "Mode A") (cfg !! "active_profile"))
    as [| | |a|la|oa] eqn:Ha;
    destruct ps as [| | |sp|lp|profiles]; cbn; try done.
  - destruct (str_contains a sp); cbn; [|done]. by rewrite Hp.
  - destruct (existsb _ lp); cbn; [|done]. by rewrite Hp.
  - intros _. by exists cfg, profiles, a.
Qed.

Lemma existsb_eq_str (s : string) (l : list json) :
  existsb (λ v, eq_str v s) l = true ↔ JStr s ∈ l.
Proof.
  rewrite existsb_exists. split.
  - intros (v & Hin & Hv). apply list_elem_of_In in Hin.
    destruct v; try done. cbn in Hv. by apply bool_decide_eq_true in Hv as ->.
  - intros Hin. exists (JStr s). split; [by apply list_elem_of_In|].
    cbn. by apply bool_decide_eq_true.
Qed.



(** X2.  [load_config] is idempotent: loading again, with the same file on
    disk, returns the state the first call returned. *)
Theorem load_config_idempotent g g' :
  load_config g = Returns g' → load_config g' = Returns g'.
Proof.
  intros H.
  destruct (load_config_Returns g g' H)
    as (cfg & profiles & active & Hr & Hp & Ha).
  pose proof H as H'.
  rewrite (load_config_dict g cfg profiles active Hr Hp Ha) in H'.
  injection H' as Hg'.
  assert (disk g' = disk g) as Hd.
  { rewrite <- Hg'. by destruct (profiles !! active). }
  destruct (read_config_cases g) as [(data & Hdisk & Hall)|Hall].
  - (* the document on disk was taken, and is taken again *)
    assert (read_config g' = JObj cfg) as Hr'.
    { rewrite (Hall g' Hd). rewrite <- Hr. symmetry. by apply Hall. }
    rewrite (load_config_dict g' cfg profiles active Hr' Hp Ha).
    rewrite <- Hg'. by destruct (profiles !! active).
  - (* the configuration in memory was kept, and is kept again *)
    pose proof (Hall g' Hd) as Hr'. rewrite (Hall g eq_refl) in Hr.
    destruct (profiles !! active) as [settings|] eqn:E.
    + rewrite (load_config_dict g' cfg profiles active);
        [|by rewrite Hr', <- Hg'|done..].
      rewrite E, <- Hg'. reflexivity.
    + rewrite (load_config_dict g'
                 (<["active_profile" := JStr active]>
                    (<["profiles" :=
                         JObj (<[active := JObj DEFAULT_PROFILE]> profiles)]>
                       cfg))
                 (<[active := JObj DEFAULT_PROFILE]> profiles) active).
      * rewrite lookup_insert_eq, <- Hg'. reflexivity.
      * by rewrite Hr', <- Hg'.
      * by rewrite lookup_insert_ne, lookup_insert_eq.
      * by rewrite lookup_insert_eq.
Qed.

Lemma load_config_idempotent_witness :
  ∃ g', load_config (startup None false (Document sparse_document))
        = Returns g'
        ∧ load_config g' = Returns g'.
Proof.
  eexists. split; [reflexivity|].
  exact (load_config_idempotent
           (startup None false (Document sparse_document)) _ eq_refl).
Defined.

(** X3.  A config file that parses to something without a "profiles"
    member is ignored as a whole, [active_profile] included: null, a
    boolean, a number, an object without the key, a list that does not
    hold the string "profiles", a string that does not contain it.  At
    startup the configuration then stays at its default. *)
Theorem load_config_ignores_document g data :
  disk g = Document data →
  match data with
  | JNull | JBool _ | JInt _ => True
  | JObj o => o !! "profiles" = None
  | JList l => JStr "profiles" ∉ l
  | JStr s => String.index 0 "profiles" s = None
  end →
  read_config g = GLOBAL_CONFIG g
  ∧ ∀ kb speech,
      load_config (startup kb speech (Document data))
      = Returns (startup kb speech (Document data)).
Proof.
  intros Hd Hdata.
  assert (contains data (JStr "profiles") ≠ Returns true) as Hno.
  { destruct data as [| | |s|l|o]; cbn; try done.
    - unfold str_contains. rewrite Hdata. by intros [= ?].
    - intros [= Hl]. by apply existsb_eq_str in Hl.
    - rewrite Hdata. by intros [= ?]. }
  assert (∀ g0, disk g0 = Document data → read_config g0 = GLOBAL_CONFIG g0)
    as Hr.
  { intros g0 Hg0. unfold read_config. rewrite Hg0.
    by destruct (contains data (JStr "profiles")) as [[]| |]. }
  split; [by apply Hr|]. intros kb speech.
  rewrite (load_config_dict (startup kb speech (Document data))
             (<["active_profile" := JStr "Mode A"]>
                (<["profiles" :=
                     JObj (<["Mode A" := JObj DEFAULT_PROFILE]> ∅)]> ∅))
             (<["Mode A" := JObj DEFAULT_PROFILE]> ∅) "Mode A");
    [done|by rewrite Hr|done..].
Qed.

Lemma load_config_ignores_document_witness :
  load_config
    (startup None false
       (Document (JObj (<["active_profile" := JStr "Work"]> ∅))))
  = Returns
      (startup None false
         (Document (JObj (<["active_profile" := JStr "Work"]> ∅)))).
Proof.
  exact (proj2 (load_config_ignores_document
                  (startup None false
                     (Document (JObj (<["active_profile" := JStr "Work"]> ∅))))
                  _ eq_refl eq_refl) None false).
Defined.

(** X4.  Config files that make [load_config] raise, which ends the
    program at startup.  A list holding the string "profiles", or a string
    containing it, passes the membership test and is then asked for
    [.get]: [AttributeError].  An object whose "profiles" member is null, a
    boolean, a number or a string is not a mapping the active name can be
    looked up or stored in: [TypeError].  So is an object with a
    dictionary of profiles whose "active_profile" is a list or an
    object. *)
Theorem load_config_raises_on_document g :
  (∀ l, disk g = Document (JList l) → JStr "profiles" ∈ l →
        load_config g = Raises AttributeError)
  ∧ (∀ s, disk g = Document (JStr s) →
          is_Some (String.index 0 "profiles" s) →
          load_config g = Raises AttributeError)
  ∧ (∀ o p, disk g = Document (JObj o) → o !! "profiles" = Some p →
            match p with
            | JNull | JBool _ | JInt _ | JStr _ => True
            | JList _ | JObj _ => False
            end →
            load_config g = Raises TypeError)
  ∧ (∀ o profiles a, disk g = Document (JObj o) →
            o !! "profiles" = Some (JObj profiles) →
            o !! "active_profile" = Some a →
            match a with
            | JList _ | JObj _ => True
            | _ => False
            end →
            load_config g = Raises TypeError).
Proof.
  split; [|split; [|split]].
  - intros l Hd Hin. unfold load_config, read_config. rewrite Hd. cbn.
    apply existsb_eq_str in Hin. by rewrite Hin.
  - intros s Hd Hin. unfold load_config, read_config. rewrite Hd. cbn.
    unfold str_contains. by rewrite bool_decide_eq_true_2.
  - intros o p Hd Hp Hkind. unfold load_config, read_config. rewrite Hd. cbn.
    rewrite Hp. rewrite bool_decide_eq_true_2 by done. cbn. rewrite Hp. cbn.
    destruct p as [| | |sp| |]; try done.
    destruct (default (JStr "Mode A") (o !! "active_profile"))
      as [| | |a| |]; cbn; try done.
    destruct (str_contains a sp); cbn; [|done]. by rewrite Hp.
  - intros o profiles a Hd Hp Ha Hkind.
    unfold load_config, read_config. rewrite Hd. cbn.
    rewrite Hp. rewrite bool_decide_eq_true_2 by done. cbn.
    rewrite Ha, Hp. cbn. by destruct a.
Qed.

Lemma load_config_raises_on_document_witness :
  load_config (startup None false (Document (JList [JStr "profiles"])))
  = Raises AttributeError
  ∧ load_config
      (startup None false (Document (JObj (<["profiles" := JNull]> ∅))))
    = Raises TypeError.
Proof.
  split.
  - apply (proj1 (load_config_raises_on_document
                    (startup None false (Document (JList [JStr "profiles"]))))
             [JStr "profiles"] eq_refl).
    apply list_elem_of_here.
  - exact (proj1 (proj2 (proj2 (load_config_raises_on_document
             (startup None false
                (Document (JObj (<["profiles" := JNull]> ∅)))))))
             _ JNull eq_refl eq_refl I).
Defined.

(** ** The listener and the dispatcher together *)

Section ListenerRuns.
Context {State : Type}.
Variable on_press on_release : string → State → outcome State.

#[local] Abbreviation pass_of := (loop_body on_press on_release).
#[local] Abbreviation run_of := (loop on_press on_release).

Lemma loop_body_idle flags s r :
  idle r = true → pass_of flags s r = Next flags s [].
Proof.
  destruct r as [data|]; [|done]. unfold idle, code, loop_body.
  destruct (negb (bool_decide (data = [])) && bool_decide (5 < length data)%nat);
    [|done].
  intros Hc%negb_true_iff%bool_decide_eq_false.
  rewrite !bool_decide_eq_false_2; [done|..];
    intros Hin; apply Hc; rewrite !elem_of_cons in Hin;
    destruct Hin as [->|[->|[->|Hin]]];
    [..|by apply elem_of_nil in Hin]; rewrite !elem_of_cons; auto 10.
Qed.

(** X5.  Reads that carry no button code (reports of at most 5 bytes,
    empty reads, reports whose byte 5 is none of 33 to 38) are ignored:
    whatever the flags, the listener calls no handler, keeps its state and
    its flags, and goes on polling. *)
Theorem loop_idle flags s reads :
  forallb idle reads = true →
  dispatched (loop on_press on_release flags s reads) = []
  ∧ final (loop on_press on_release flags s reads) = s
  ∧ state_of (loop on_press on_release flags s reads) = Polling
  ∧ last (flag_history (loop on_press on_release flags s reads)) = Some flags.
Proof.
  induction reads as [|r reads IH]; [done|].
  cbn [forallb]. intros [Hr Hrs]%andb_prop.
  cbn [loop]. rewrite (loop_body_idle _ _ _ Hr). cbn.
  destruct (IH Hrs) as (-> & -> & -> & Hl). repeat split; try done.
  destruct (flag_history_head on_press on_release flags s reads) as [t Ht].
  rewrite Ht in Hl |- *. done.
Qed.

(** X6.  A read that fails ends the listener: the run is the same
    whatever would have been read afterwards, the thread has left the loop,
    and if it was still polling before the failure it has made exactly the
    calls it had made until then. *)
Theorem loop_read_fails flags s before after :
  loop on_press on_release flags s (before ++ ReadFails :: after)
  = loop on_press on_release flags s (before ++ [ReadFails])
  ∧ state_of (loop on_press on_release flags s
                (before ++ ReadFails :: after)) ≠ Polling
  ∧ (state_of (loop on_press on_release flags s before) = Polling →
     dispatched (loop on_press on_release flags s
                   (before ++ ReadFails :: after))
     = dispatched (loop on_press on_release flags s before)
     ∧ state_of (loop on_press on_release flags s
                   (before ++ ReadFails :: after)) = Returned).
Proof.
  revert flags s. induction before as [|r before IH]; intros flags s.
  { done. }
  cbn [app loop].
  destruct (pass_of flags s r) as [flags' s' evs|s' evs|s' evs]; [|done..].
  destruct (IH flags' s') as (E1 & Hs & Hp). rewrite E1 in Hs, Hp |- *. cbn.
  split; [done|]. split; [done|]. intros Hpoll.
  destruct (Hp Hpoll) as [Hd Hr]. split; [by rewrite Hd|done].
Qed.

(** A relation that every returning call keeps is kept by the run. *)
Lemma loop_keeps (R : State → State → Prop) flags s reads :
  (∀ s, R s s) → (∀ s1 s2 s3, R s1 s2 → R s2 s3 → R s1 s3) →
  (∀ btn s s', on_press btn s = Returns s' → R s s') →
  (∀ btn s s', on_release btn s = Returns s' → R s s') →
  R s (final (run_of flags s reads)).
Proof.
  intros Hrefl Htrans Hp Hr. revert flags s.
  induction reads as [|r reads IH]; intros flags s; [apply Hrefl|].
  cbn [loop].
  destruct (loop_body_cases on_press on_release flags s r)
    as [E|[E|[(k & b & _ & _ & _ & E)|(k & b & _ & _ & _ & E)]]];
    rewrite E.
  - apply IH.
  - apply Hrefl.
  - cbn. destruct (on_press b s) as [s'| |] eqn:Hs; cbn; [|apply Hrefl..].
    eapply Htrans; [by eapply Hp|apply IH].
  - cbn. destruct (on_release b s) as [s'| |] eqn:Hs; cbn; [|apply Hrefl..].
    eapply Htrans; [by eapply Hr|apply IH].
Qed.

(** If, under an invariant, the handlers of the three buttons return and
    keep the invariant, a run over reports only never leaves the loop. *)
Lemma loop_polls (Inv : State → Prop) flags s reads :
  (∀ key btn s, button key = Some btn → Inv s →
     ∃ s', on_press btn s = Returns s' ∧ Inv s') →
  (∀ key btn s, button key = Some btn → Inv s →
     ∃ s', on_release btn s = Returns s' ∧ Inv s') →
  Inv s → forallb is_report reads = true →
  state_of (run_of flags s reads) = Polling
  ∧ interrupted (run_of flags s reads) = []
  ∧ Inv (final (run_of flags s reads)).
Proof.
  intros Hp Hr. revert flags s.
  induction reads as [|r reads IH]; intros flags s Hs; [done|].
  cbn [forallb]. intros [Hrep Hreads]%andb_prop. cbn [loop].
  destruct (loop_body_cases on_press on_release flags s r)
    as [E|[E|[(k & b & _ & Hb & _ & E)|(k & b & _ & Hb & _ & E)]]].
  - rewrite E. cbn. by apply IH.
  - destruct r; [|done]. exfalso. revert E. unfold loop_body.
    destruct (negb (bool_decide (data = [])) && bool_decide (5 < length data)%nat);
      [|done].
    cbn. repeat case_bool_decide; try done;
      repeat match goal with
             | |- context [if ?c then _ else _] => destruct c
             | |- context [call _ _ ?t _ _] => destruct t; cbn
             | |- context [match ?h ?b ?s with _ => _ end] => destruct (h b s)
             end; done.
  - rewrite E. cbn. destruct (Hp k b s Hb Hs) as (s' & -> & Hs'). cbn.
    by apply IH.
  - rewrite E. cbn. destruct (Hr k b s Hb Hs) as (s' & -> & Hs'). cbn.
    by apply IH.
Qed.

End ListenerRuns.

Lemma loop_idle_witness :
  dispatched (monitor_mouse (startup None true Absent)
                [Report []; Report [1; 2; 3; 4; 5]; Report [1; 2; 3; 4; 5; 39];
                 Report [33; 33; 33; 33; 33; 32; 33]])
  = [].
Proof.
  exact (proj1 (loop_idle execute_button_press execute_button_release
                  initial_flags (startup None true Absent)
                  [Report []; Report [1; 2; 3; 4; 5]; Report [1; 2; 3; 4; 5; 39];
                   Report [33; 33; 33; 33; 33; 32; 33]] eq_refl)).
Defined.

Lemma loop_read_fails_witness :
  dispatched (monitor_mouse (startup None true Absent)
                [Report [1; 0; 0; 0; 0; 33]; ReadFails;
                 Report [1; 0; 0; 0; 0; 34]])
  = [Press "mic"].
Proof.
  destruct (loop_read_fails execute_button_press execute_button_release
              initial_flags (startup None true Absent)
              [Report [1; 0; 0; 0; 0; 33]] [Report [1; 0; 0; 0; 0; 34]])
    as (_ & _ & H).
  exact (proj1 (H eq_refl)).
Defined.

(** What the actions keep. *)
Lemma keeps_configuration_refl g : keeps_configuration g g.
Proof. by repeat split. Qed.

Lemma keeps_configuration_trans g1 g2 g3 :
  keeps_configuration g1 g2 → keeps_configuration g2 g3 →
  keeps_configuration g1 g3.
Proof.
  intros (? & ? & ? & ? & ? & ?) (? & ? & ? & ? & ? & ?).
  repeat split; try congruence. by etrans.
Qed.

Lemma keeps_configuration_emit e g : keeps_configuration g (emit e g).
Proof. repeat split. by apply prefix_app_r. Qed.

Lemma set_mouse_speed_keeps speed g g' :
  set_mouse_speed speed g = Returns g' → keeps_configuration g g'.
Proof.
  unfold set_mouse_speed. destruct (Py.int speed); cbn; [|done..].
  intros [= <-]. apply keeps_configuration_emit.
Qed.

Lemma toggle_dpi_keeps g g' :
  toggle_dpi g = Returns g' → keeps_configuration g g'.
Proof.
  unfold toggle_dpi. intros H.
  apply bind_Returns in H as (fast & _ & H).
  apply bind_Returns in H as (normal & _ & H).
  apply bind_Returns in H as (g1 & H1 & H). injection H as <-.
  eapply keeps_configuration_trans; [|apply keeps_configuration_emit].
  destruct (bool_decide (current_speed_mode g = "NORMAL"));
    apply bind_Returns in H1 as (g2 & H2%set_mouse_speed_keeps & [= <-]);
    destruct H2 as (? & ? & ? & ? & ? & ?); by repeat split.
Qed.

Lemma start_voice_recording_keeps g :
  keeps_configuration g (start_voice_recording g).
Proof.
  unfold start_voice_recording. destruct (sr g) eqn:E; cbn.
  - repeat split; try done. by apply prefix_app_r.
  - apply keeps_configuration_emit.
Qed.

Lemma stop_voice_recording_keeps g :
  keeps_configuration g (stop_voice_recording g).
Proof.
  unfold stop_voice_recording. destruct (MIC_IS_HELD g); cbn.
  - repeat split; try done. by apply prefix_app_r.
  - apply keeps_configuration_refl.
Qed.

Lemma execute_button_press_keeps btn_key g g' :
  execute_button_press btn_key g = Returns g' → keeps_configuration g g'.
Proof.
  unfold execute_button_press. intros H.
  apply bind_Returns in H as (cfg & _ & H).
  apply bind_Returns in H as (action & _ & H).
  apply bind_Returns in H as (param & _ & H).
  destruct (eq_str action "voice_typing").
  { injection H as <-. apply start_voice_recording_keeps. }
  destruct (eq_str action "open_url").
  { destruct (truthy param); injection H as <-;
      [apply keeps_configuration_emit|apply keeps_configuration_refl]. }
  destruct (eq_str action "key_press").
  { destruct (keyboard g) as [kb|]; [|injection H as <-;
                                       apply keeps_configuration_refl].
    destruct (truthy param); [|injection H as <-;
                                 apply keeps_configuration_refl].
    destruct (send_accepts kb param); [|done].
    injection H as <-. apply keeps_configuration_emit. }
  destruct (eq_str action "toggle_dpi"); [by apply toggle_dpi_keeps|].
  injection H as <-. apply keeps_configuration_refl.
Qed.

Lemma execute_button_release_keeps btn_key g g' :
  execute_button_release btn_key g = Returns g' → keeps_configuration g g'.
Proof.
  unfold execute_button_release. intros H.
  apply bind_Returns in H as (cfg & _ & H).
  apply bind_Returns in H as (action & _ & H).
  destruct (eq_str action "voice_typing"); injection H as <-;
    [apply stop_voice_recording_keeps|apply keeps_configuration_refl].
Qed.

(** X7.  The listener only reads the profile store: whatever it reads from
    the device, and whatever the configured actions are, a run of
    [monitor_mouse] leaves [GLOBAL_CONFIG], [ACTIVE_SETTINGS] and the
    config file as they were, and only adds to the log of effects. *)
Theorem monitor_mouse_keeps_configuration g reads :
  keeps_configuration g (final (monitor_mouse g reads)).
Proof.
  apply (loop_keeps execute_button_press execute_button_release
           keeps_configuration).
  - apply keeps_configuration_refl.
  - apply keeps_configuration_trans.
  - apply execute_button_press_keeps.
  - apply execute_button_release_keeps.
Qed.

Lemma toggle_dpi_typed g :
  typed_profile (ACTIVE_SETTINGS g) = true → ∃ g', toggle_dpi g = Returns g'.
Proof.
  destruct (ACTIVE_SETTINGS g) as [| | | | |o] eqn:Ha; try done. cbn.
  intros Ht. repeat (apply andb_prop in Ht as [Ht ?]).
  unfold toggle_dpi, set_mouse_speed. rewrite Ha. cbn.
  destruct (o !! "dpi_fast") as [[]|]; try done;
    destruct (o !! "dpi_normal") as [[]|]; try done;
    destruct (bool_decide (current_speed_mode g = "NORMAL")); cbn; eauto.
Qed.

Lemma execute_button_press_typed btn_key g :
  btn_key ∈ ["mic"; "search"; "side"] →
  typed_profile (ACTIVE_SETTINGS g) = true → keyboard_accepts_all g →
  ∃ g', execute_button_press btn_key g = Returns g'.
Proof.
  intros Hkey Ht Hkb.
  destruct (toggle_dpi_typed g Ht) as [gt Hgt].
  destruct (ACTIVE_SETTINGS g) as [| | | | |o] eqn:Ha; try done.
  cbn in Ht. repeat (apply andb_prop in Ht as [Ht ?]).
  assert (typed_button (default (JObj ∅) (o !! btn_key)) = true) as Hb.
  { rewrite !elem_of_cons in Hkey.
    destruct Hkey as [->|[->|[->|Hkey]]]; [done..|by apply elem_of_nil in Hkey]. }
  unfold execute_button_press. rewrite Ha. cbn.
  destruct (default (JObj ∅) (o !! btn_key)) as [| | | | |b]; try done.
  cbn in Hb. apply andb_prop in Hb as [Hact Hpar]. cbn.
  destruct (eq_str (default JNull (b !! "action")) "voice_typing"); [eauto|].
  destruct (eq_str (default JNull (b !! "action")) "open_url").
  { destruct (truthy _); eauto. }
  destruct (eq_str (default JNull (b !! "action")) "key_press").
  { destruct (keyboard g) as [kb|] eqn:Hk; [|eauto].
    destruct (truthy _); [|eauto]. rewrite (Hkb kb Hk). eauto. }
  destruct (eq_str (default JNull (b !! "action")) "toggle_dpi"); eauto.
Qed.

Lemma execute_button_release_typed btn_key g :
  btn_key ∈ ["mic"; "search"; "side"] →
  typed_profile (ACTIVE_SETTINGS g) = true →
  ∃ g', execute_button_release btn_key g = Returns g'.
Proof.
  intros Hkey Ht.
  destruct (ACTIVE_SETTINGS g) as [| | | | |o] eqn:Ha; try done.
  cbn in Ht. repeat (apply andb_prop in Ht as [Ht ?]).
  assert (typed_button (default (JObj ∅) (o !! btn_key)) = true) as Hb.
  { rewrite !elem_of_cons in Hkey.
    destruct Hkey as [->|[->|[->|Hkey]]]; [done..|by apply elem_of_nil in Hkey]. }
  unfold execute_button_release. rewrite Ha. cbn.
  destruct (default (JObj ∅) (o !! btn_key)) as [| | | | |b]; try done. cbn.
  destruct (eq_str _ _); eauto.
Qed.

Lemma button_name key btn :
  button key = Some btn → btn ∈ ["mic"; "search"; "side"].
Proof.
  unfold button. repeat case_match; intros [= <-];
    rewrite !elem_of_cons; auto.
Qed.

(** X8.  With an active profile whose fields have the types of the data
    model, and a key-emulation backend that is absent or accepts the
    configured combinations, no action raises: as long as the device can be
    read, the listener stays in its loop, however the buttons are pressed,
    and the profile stays well-typed. *)
Theorem monitor_mouse_keeps_polling g reads :
  typed_profile (ACTIVE_SETTINGS g) = true →
  keyboard_accepts_all g →
  forallb is_report reads = true →
  state_of (monitor_mouse g reads) = Polling
  ∧ interrupted (monitor_mouse g reads) = []
  ∧ typed_profile (ACTIVE_SETTINGS (final (monitor_mouse g reads))) = true.
Proof.
  intros Ht Hkb Hreads.
  destruct (loop_polls execute_button_press execute_button_release
              (λ g, typed_profile (ACTIVE_SETTINGS g) = true
                    ∧ keyboard_accepts_all g)
              initial_flags g reads) as (? & ? & ? & _); try done.
  - intros key btn g0 Hb [Ht0 Hk0].
    destruct (execute_button_press_typed btn g0 (button_name _ _ Hb) Ht0 Hk0)
      as [g' Hg'].
    exists g'. split; [done|].
    apply execute_button_press_keeps in Hg' as (_ & Ha & Hk & _).
    unfold keyboard_accepts_all. by rewrite Ha, Hk.
  - intros key btn g0 Hb [Ht0 Hk0].
    destruct (execute_button_release_typed btn g0 (button_name _ _ Hb) Ht0)
      as [g' Hg'].
    exists g'. split; [done|].
    apply execute_button_release_keeps in Hg' as (_ & Ha & Hk & _).
    unfold keyboard_accepts_all. by rewrite Ha, Hk.
Qed.

Lemma monitor_mouse_keeps_polling_witness :
  state_of (monitor_mouse (startup None true Absent)
              [Report [1; 0; 0; 0; 0; 37]; Report [1; 0; 0; 0; 0; 35];
               Report [1; 0; 0; 0; 0; 38]])
  = Polling.
Proof.
  apply (monitor_mouse_keeps_polling (startup None true Absent)
           [Report [1; 0; 0; 0; 0; 37]; Report [1; 0; 0; 0; 0; 35];
            Report [1; 0; 0; 0; 0; 38]]); [reflexivity| |reflexivity].
  intros kb Hkb. discriminate Hkb.
Defined.

(** ** Push-to-talk *)

(** X9.  A button configured for voice typing, on a machine with speech
    recognition: pressing sets the capture flag and starts one recording
    thread; releasing clears the flag and announces the transcription; a
    second release does nothing.  Pressing is not guarded by the flag: a
    press while capturing starts a further recording thread.  Without
    speech recognition a press only prints the notice and the flag stays
    as it is. *)
Theorem push_to_talk g (profile cfg : gmap string json) btn_key :
  ACTIVE_SETTINGS g = JObj profile →
  profile !! btn_key = Some (JObj cfg) →
  cfg !! "action" = Some (JStr "voice_typing") →
  (sr g = true →
     ∃ g1 g2 g3,
       execute_button_press btn_key g = Returns g1
       ∧ MIC_IS_HELD g1 = true
       ∧ log g1 = log g ++ [RecordThread]
       ∧ execute_button_release btn_key g1 = Returns g2
       ∧ MIC_IS_HELD g2 = false
       ∧ log g2 = log g ++ [RecordThread; Print "🛑 停止收音，開始轉譯..."]
       ∧ execute_button_release btn_key g2 = Returns g2
       ∧ execute_button_press btn_key g1 = Returns g3
       ∧ MIC_IS_HELD g3 = true
       ∧ log g3 = log g ++ [RecordThread; RecordThread])
  ∧ (sr g = false →
     execute_button_press btn_key g
     = Returns (emit (Print "❌ 缺 SpeechRecognition") g)
     ∧ MIC_IS_HELD (emit (Print "❌ 缺 SpeechRecognition") g)
       = MIC_IS_HELD g).
Proof.
  intros Ha Hb Hact.
  assert (∀ g0, ACTIVE_SETTINGS g0 = JObj profile →
            execute_button_press btn_key g0
            = Returns (start_voice_recording g0)) as Hpress.
  { intros g0 H0. unfold execute_button_press. rewrite H0. cbn.
    rewrite Hb. cbn. by rewrite Hact. }
  assert (∀ g0, ACTIVE_SETTINGS g0 = JObj profile →
            execute_button_release btn_key g0
            = Returns (stop_voice_recording g0)) as Hrelease.
  { intros g0 H0. unfold execute_button_release. rewrite H0. cbn.
    rewrite Hb. cbn. by rewrite Hact. }
  split.
  - intros Hsr. eexists _, _, _.
    split; [by apply Hpress|].
    unfold start_voice_recording. rewrite Hsr. cbn.
    split; [done|]. split; [done|].
    split; [by apply Hrelease|]. cbn.
    split; [done|]. split; [by rewrite <- app_assoc|].
    split; [by rewrite Hrelease|].
    split; [by rewrite Hpress|].
    unfold start_voice_recording. cbn. rewrite Hsr. cbn.
    split; [done|]. by rewrite <- app_assoc.
  - intros Hsr. rewrite (Hpress g Ha). unfold start_voice_recording.
    by rewrite Hsr.
Qed.

Lemma push_to_talk_witness :
  ∃ g1, execute_button_press "mic" (startup None true Absent) = Returns g1
        ∧ MIC_IS_HELD g1 = true.
Proof.
  destruct (proj1 (push_to_talk (startup None true Absent) DEFAULT_PROFILE
                     (<["action" := JStr "voice_typing"]>
                        (<["param" := JStr ""]> ∅))
                     "mic" eq_refl eq_refl eq_refl) eq_refl)
    as (g1 & _ & _ & H1 & H2 & _).
  by exists g1.
Defined.

(** ** The settings window *)

Lemma setitem_str_Returns container (s : string) v container' :
  setitem container (JStr s) v = Returns container' →
  ∃ o, container = JObj o ∧ container' = JObj (<[s := v]> o).
Proof.
  destruct container as [| | | |l|o]; cbn; try done. intros [= <-]. eauto.
Qed.

Lemma load_data_key row data row' :
  load_data row data = Returns row' → button_key row' = button_key row.
Proof.
  unfold load_data. intros H.
  repeat (apply bind_Returns in H as (? & _ & H)).
  by injection H as <-.
Qed.

Lemma load_rows_three items data items' :
  load_rows items data = Returns items' →
  three_rows items → three_rows items'.
Proof.
  intros H [Hkeys Hrows].
  assert (items'.*1 = items.*1
          ∧ Forall (λ item, button_key item.2 = item.1) items') as [? ?];
    [|split; congruence].
  clear Hkeys. revert items' H.
  induction items as [|[k row] items IH]; intros items' H; cbn in H.
  { by injection H as <-. }
  apply Forall_cons in Hrows as [Hk Hrows].
  apply bind_Returns in H as (row' & Hr & H).
  apply bind_Returns in H as (rest & Hl & H). injection H as <-.
  destruct (IH Hrows rest Hl) as [Hfst Hall]. split; [by cbn; rewrite Hfst|].
  apply Forall_cons. split; [|done].
  cbn in *. by rewrite (load_data_key _ _ _ Hr).
Qed.

Lemma change_profile_Returns app g app' g' :
  change_profile app g = Returns (app', g') →
  profile_var app' = profile_var app
  ∧ (three_rows (rows app) → three_rows (rows app'))
  ∧ runtime g' = runtime g ∧ log g' = log g
  ∧ ∃ cfg, GLOBAL_CONFIG g = JObj cfg
           ∧ GLOBAL_CONFIG g'
             = JObj (<["active_profile" := JStr (profile_var app)]> cfg).
Proof.
  unfold change_profile, load_profile_to_gui. intros H.
  apply bind_Returns in H as (app1 & H1 & H).
  apply bind_Returns in H1 as (ps & _ & H1).
  apply bind_Returns in H1 as (data & _ & H1).
  apply bind_Returns in H1 as (items & Hl & H1). injection H1 as <-.
  apply bind_Returns in H as (cfg' & Hs & H). injection H as <- <-.
  apply setitem_str_Returns in Hs as (cfg & Hg & ->).
  split; [done|]. split; [by apply (load_rows_three _ _ _ Hl)|].
  split; [done|]. split; [done|]. by exists cfg.
Qed.

(** X10.  [add_profile] changes nothing when the dialog is cancelled, when
    the name entered is empty, and when the name is already a key of the
    profiles: the window and the globals stay as they are. *)
Theorem add_profile_rejects app g :
  add_profile None app g = Returns (app, g)
  ∧ add_profile (Some "") app g = Returns (app, g)
  ∧ ∀ (cfg profiles : gmap string json) name,
      GLOBAL_CONFIG g = JObj cfg →
      cfg !! "profiles" = Some (JObj profiles) →
      is_Some (profiles !! name) →
      add_profile (Some name) app g = Returns (app, g).
Proof.
  split; [done|]. split; [done|].
  intros cfg profiles name Hg Hp Hn. unfold add_profile.
  case_bool_decide; [done|]. rewrite Hg. cbn. rewrite Hp. cbn.
  by rewrite bool_decide_eq_true_2.
Qed.

Lemma add_profile_rejects_witness :
  add_profile (Some "Work") work_window work_globals
  = Returns (work_window, work_globals).
Proof.
  exact (proj2 (proj2 (add_profile_rejects work_window work_globals))
           two_profiles
           (<["Mode A" := JObj DEFAULT_PROFILE]>
              (<["Work" := JObj work_profile]> ∅))
           "Work" eq_refl eq_refl (ex_intro _ _ eq_refl)).
Defined.

(** X11.  [add_profile] with a new, non-empty name stores under it a copy
    of the active profile, leaves every other profile as it is, selects the
    new name in the window and makes it the active profile name.  The
    active profile must exist and be well-typed for the rows to show it. *)
Theorem add_profile_copies_active app g
    (cfg profiles : gmap string json) (name active : string) source :
  name ≠ "" →
  GLOBAL_CONFIG g = JObj cfg →
  cfg !! "profiles" = Some (JObj profiles) →
  profiles !! name = None →
  cfg !! "active_profile" = Some (JStr active) →
  profiles !! active = Some source →
  typed_profile source = true →
  three_rows (rows app) →
  ∃ items,
    add_profile (Some name) app g
    = Returns
        ({| profile_var := name; rows := items |},
         set_GLOBAL_CONFIG
           (JObj (<["active_profile" := JStr name]>
                 (<["profiles" := JObj (<[name := source]> profiles)]> cfg)))
           g)
    ∧ three_rows items
    ∧ <[name := source]> profiles !! name = Some source
    ∧ ∀ other, other ≠ name →
        <[name := source]> profiles !! other = profiles !! other.
Proof.
  intros Hne Hg Hp Hfree Hact Hsrc Ht Hrows.
  destruct (load_rows_typed _ _ Hrows Ht) as (items & Hl & Hitems).
  exists items. split; [|split; [done|split]].
  - unfold add_profile. rewrite bool_decide_eq_false_2 by done.
    rewrite Hg. cbn. rewrite Hp. cbn.
    rewrite bool_decide_eq_false_2 by (rewrite Hfree; by intros [? ?]).
    cbn. rewrite Hact. cbn. rewrite Hsrc. cbn.
    destruct source as [| | | | |o]; try done. cbn.
    unfold change_profile, load_profile_to_gui. cbn.
    rewrite lookup_insert_eq. cbn. rewrite lookup_insert_eq. cbn.
    rewrite Hl. reflexivity.
  - apply lookup_insert_eq.
  - intros other Ho. by apply lookup_insert_ne.
Qed.

Lemma add_profile_copies_active_witness :
  ∃ items,
    add_profile (Some "Game") work_window work_globals
    = Returns
        ({| profile_var := "Game"; rows := items |},
         set_GLOBAL_CONFIG
           (JObj (<["active_profile" := JStr "Game"]>
                 (<["profiles" :=
                      JObj (<["Game" := JObj work_profile]>
                           (<["Mode A" := JObj DEFAULT_PROFILE]>
                           (<["Work" := JObj work_profile]> ∅)))]> ∅)))
           work_globals).
Proof.
  destruct (add_profile_copies_active work_window work_globals two_profiles
              (<["Mode A" := JObj DEFAULT_PROFILE]>
                 (<["Work" := JObj work_profile]> ∅))
              "Game" "Work" (JObj work_profile)
              ltac:(done) eq_refl eq_refl eq_refl eq_refl eq_refl eq_refl
              ltac:(split; [reflexivity|by repeat constructor]))
    as (items & H & _).
  exists items. rewrite H. reflexivity.
Defined.

Lemma add_profile_Returns answer app g app' g' :
  add_profile answer app g = Returns (app', g') →
  runtime g' = runtime g ∧ log g' = log g
  ∧ (three_rows (rows app) → three_rows (rows app')).
Proof.
  unfold add_profile. destruct answer as [name|]; [|by intros [= <- <-]].
  case_bool_decide as Hname; [by intros [= <- <-]|]. intros H.
  apply bind_Returns in H as (ps & _ & H).
  apply bind_Returns in H as (taken & _ & H).
  destruct taken; cbn in H; [by injection H as <- <-|].
  apply bind_Returns in H as (active & _ & H).
  apply bind_Returns in H as (source & _ & H).
  apply bind_Returns in H as (copy & _ & H).
  apply bind_Returns in H as (ps' & _ & H).
  apply bind_Returns in H as (cfg & _ & H).
  apply change_profile_Returns in H as (_ & Hrows & Hrt & Hlog & _).
  done.
Qed.

Lemma del_profile_Returns confirmed app g app' g' :
  del_profile confirmed app g = Returns (app', g') →
  runtime g' = runtime g ∧ log g `prefix_of` log g'
  ∧ (three_rows (rows app) → three_rows (rows app')).
Proof.
  unfold del_profile. case_bool_decide as Hname.
  { intros [= <- <-]. split; [done|]. split; [by apply prefix_app_r|done]. }
  destruct confirmed; [|by intros [= <- <-]]. intros H.
  apply bind_Returns in H as (ps & _ & H).
  apply bind_Returns in H as (ps' & _ & H).
  apply bind_Returns in H as (cfg & _ & H).
  apply change_profile_Returns in H as (_ & Hrows & Hrt & Hlog & _).
  split; [done|]. split; [by rewrite Hlog|done].
Qed.

(** X12.  Selecting, adding and deleting a profile in the window never
    change what the buttons do, nor the config file: [ACTIVE_SETTINGS],
    the speed mode, the capture flag and the file stay as they were (the
    new selection becomes effective with [save_all] only). *)
Theorem profile_operations_keep_runtime app g app' g' :
  (change_profile app g = Returns (app', g') → runtime g' = runtime g)
  ∧ (∀ answer, add_profile answer app g = Returns (app', g') →
               runtime g' = runtime g)
  ∧ (∀ confirmed, del_profile confirmed app g = Returns (app', g') →
                  runtime g' = runtime g).
Proof.
  split; [|split].
  - by intros (_ & _ & ? & _)%change_profile_Returns.
  - by intros answer (? & _)%add_profile_Returns.
  - by intros confirmed (? & _)%del_profile_Returns.
Qed.

Lemma profile_operations_keep_runtime_witness :
  ∃ app' g', del_profile true work_window work_globals = Returns (app', g')
             ∧ ACTIVE_SETTINGS g' = JObj work_profile.
Proof.
  eexists _, _. split; [vm_compute; reflexivity|].
  exact (f_equal (λ r, r.1.1.1.1.1)
           (proj2 (proj2 (profile_operations_keep_runtime
                            work_window work_globals _ _)) true eq_refl)).
Defined.

(** X13.  The window always has its three rows, one per button and each
    under its own key: [MouseApp.__init__] creates them with the active
    profile name selected, and selecting, adding or deleting a profile
    keeps them. *)
Theorem window_keeps_three_rows :
  (∀ g app, MouseApp_init g = Returns app →
     three_rows (rows app)
     ∧ getitem (GLOBAL_CONFIG g) (JStr "active_profile")
       = Returns (JStr (profile_var app)))
  ∧ (∀ app g app' g', three_rows (rows app) →
       (change_profile app g = Returns (app', g') → three_rows (rows app'))
       ∧ (∀ answer, add_profile answer app g = Returns (app', g') →
                    three_rows (rows app'))
       ∧ (∀ confirmed, del_profile confirmed app g = Returns (app', g') →
                       three_rows (rows app'))).
Proof.
  split.
  - intros g app H. unfold MouseApp_init, load_profile_to_gui in H.
    apply bind_Returns in H as (active & Ha & H).
    apply bind_Returns in H as (selected & Hs & H).
    apply bind_Returns in H as (ps & _ & H).
    apply bind_Returns in H as (data & _ & H).
    apply bind_Returns in H as (items & Hl & H). injection H as <-. cbn.
    destruct active; try done. injection Hs as <-. split; [|done].
    apply (load_rows_three _ _ _ Hl). split; [done|by repeat constructor].
  - intros app g app' g' Hrows. split; [|split].
    + intros (_ & H & _)%change_profile_Returns. by apply H.
    + intros answer (_ & _ & H)%add_profile_Returns. by apply H.
    + intros confirmed (_ & _ & H)%del_profile_Returns. by apply H.
Qed.

Lemma window_keeps_three_rows_witness :
  ∃ app, MouseApp_init (startup None false Absent) = Returns app
         ∧ three_rows (rows app).
Proof.
  eexists. split; [vm_compute; reflexivity|].
  exact (proj1 (proj1 window_keeps_three_rows
                  (startup None false Absent) _ eq_refl)).
Defined.

(** ** [save_all] in detail *)

(** [save_all] as one equation, given what the rows yield. *)
Lemma save_all_computes writable app g
    (cfg profiles current_data new_data dpi : gmap string json) n :
  GLOBAL_CONFIG g = JObj cfg →
  cfg !! "profiles" = Some (JObj profiles) →
  profiles !! profile_var app = Some (JObj current_data) →
  collect (rows app) ∅ (stored_dpi current_data) = Returns (new_data, dpi) →
  (writable = true →
   Py.int (default (JInt 10) ((dpi ∪ new_data) !! "dpi_normal")) = Returns n) →
  save_all writable app g
  = Returns
      (saved writable
         (JObj (<["active_profile" := JStr (profile_var app)]>
               (<["profiles" :=
                    JObj (<[profile_var app := JObj (dpi ∪ new_data)]>
                            profiles)]> cfg)))
         (JObj (dpi ∪ new_data)) n g).
Proof.
  intros Hg Hp Hc Hcol Hn. unfold save_all, stored_dpi in *.
  rewrite Hg. cbn. rewrite Hp. cbn. rewrite Hc. cbn. rewrite Hcol. cbn.
  unfold saved. destruct writable; cbn; [|done].
  unfold set_mouse_speed. by rewrite (Hn eq_refl).
Qed.

(** And back: a call that returns has computed just that. *)
Lemma save_all_Returns_detail writable app g g' :
  save_all writable app g = Returns g' →
  ∃ (cfg profiles current_data new_data dpi : gmap string json) n,
    GLOBAL_CONFIG g = JObj cfg
    ∧ cfg !! "profiles" = Some (JObj profiles)
    ∧ profiles !! profile_var app = Some (JObj current_data)
    ∧ collect (rows app) ∅ (stored_dpi current_data) = Returns (new_data, dpi)
    ∧ (writable = true →
       Py.int (default (JInt 10) ((dpi ∪ new_data) !! "dpi_normal"))
       = Returns n)
    ∧ g' = saved writable
             (JObj (<["active_profile" := JStr (profile_var app)]>
                   (<["profiles" :=
                        JObj (<[profile_var app := JObj (dpi ∪ new_data)]>
                                profiles)]> cfg)))
             (JObj (dpi ∪ new_data)) n g.
Proof.
  unfold save_all. intros H.
  apply bind_Returns in H as (ps & H1 & H).
  apply getitem_str_Returns in H1 as (cfg & Hcfg & Hps).
  apply bind_Returns in H as (cur & H2 & H).
  apply getitem_str_Returns in H2 as (profiles & -> & Hcur).
  apply bind_Returns in H as (fast & H3 & H).
  destruct cur as [| | | | |current_data]; try done.
  injection H3 as <-.
  apply bind_Returns in H as (normal & H4 & H). injection H4 as <-.
  apply bind_Returns in H as ([new_data dpi] & H5 & H).
  rewrite Hcfg in H. cbn in H.
  destruct writable; cbn in H.
  - unfold set_mouse_speed in H.
    destruct (Py.int (default (JInt 10) ((dpi ∪ new_data) !! "dpi_normal")))
      as [n| |] eqn:Hn; cbn in H; [|done..].
    injection H as <-.
    by exists cfg, profiles, current_data, new_data, dpi, n.
  - injection H as <-.
    by exists cfg, profiles, current_data, new_data, dpi, 0.
Qed.



(** X15.  [save_all] writes one slot only: the profile stored under the
    selected name becomes the active settings, the selected name becomes
    the active profile name, and every other profile and every other
    member of the configuration stays as it was. *)
Theorem save_all_writes_selected_slot writable app g g' :
  save_all writable app g = Returns g' →
  ∃ cfg profiles cfg' profiles' : gmap string json,
    GLOBAL_CONFIG g = JObj cfg
    ∧ cfg !! "profiles" = Some (JObj profiles)
    ∧ GLOBAL_CONFIG g' = JObj cfg'
    ∧ cfg' !! "profiles" = Some (JObj profiles')
    ∧ cfg' !! "active_profile" = Some (JStr (profile_var app))
    ∧ profiles' !! profile_var app = Some (ACTIVE_SETTINGS g')
    ∧ (∀ other, other ≠ profile_var app →
         profiles' !! other = profiles !! other)
    ∧ (∀ member, member ≠ "profiles" → member ≠ "active_profile" →
         cfg' !! member = cfg !! member).
Proof.
  intros (cfg & profiles & final & Hg & Hp & _ & _ & _ & _ & Hg' & Ha & _)
    %save_all_Returns.
  eexists cfg, profiles, _, _. split; [done|]. split; [done|].
  split; [done|].
  split; [by rewrite lookup_insert_ne, lookup_insert_eq|].
  split; [by rewrite lookup_insert_eq|].
  split; [by rewrite lookup_insert_eq, Ha|].
  split; [intros other Ho; by rewrite lookup_insert_ne|].
  intros member H1 H2. by rewrite !lookup_insert_ne.
Qed.

Lemma save_all_writes_selected_slot_witness :
  ∃ g' (cfg' profiles' : gmap string json),
    save_all false work_window work_globals = Returns g'
    ∧ GLOBAL_CONFIG g' = JObj cfg'
    ∧ cfg' !! "profiles" = Some (JObj profiles')
    ∧ profiles' !! "Mode A" = Some (JObj DEFAULT_PROFILE).
Proof.
  destruct (save_all_writes_selected_slot false work_window work_globals
              _ eq_refl)
    as (cfg & profiles & cfg' & profiles' & Hg & Hp & Hg' & Hp' & _ & _ & Ho & _).
  eexists _, cfg', profiles'. split; [reflexivity|].
  split; [done|]. split; [done|].
  rewrite (Ho "Mode A") by done.
  injection Hg as <-. by injection Hp as <-.
Defined.

(** The DPI values the loop over the rows ends with are those it started
    from, or do not depend on them. *)
Lemma collect_start items new_data dpi new_data' dpi' :
  collect items new_data dpi = Returns (new_data', dpi') →
  (dpi' = dpi ∧ ∀ d, collect items new_data d = Returns (new_data', d))
  ∨ (∀ d, collect items new_data d = Returns (new_data', dpi')).
Proof.
  revert new_data dpi.
  induction items as [|[key row] items IH]; intros new_data dpi; cbn.
  { intros [= <- <-]. by left. }
  destruct (get_ui_data row) as [[btn_data row_dpi]| |]; cbn; [|done..].
  destruct row_dpi as [d0|]; [destruct (negb (bool_decide (d0 = ∅)))|].
  - intros H. right. intros d. exact H.
  - intros H. destruct (IH _ _ H) as [[-> Hd]|Hd]; [by left|by right].
  - intros H. destruct (IH _ _ H) as [[-> Hd]|Hd]; [by left|by right].
Qed.

(** X16.  Saving twice is saving once: a second [save_all], with the rows
    untouched, returns and leaves the configuration, the active settings
    and the file exactly as the first left them. *)
Theorem save_all_idempotent writable app g g1 :
  save_all writable app g = Returns g1 →
  ∃ g2, save_all writable app g1 = Returns g2
        ∧ GLOBAL_CONFIG g2 = GLOBAL_CONFIG g1
        ∧ ACTIVE_SETTINGS g2 = ACTIVE_SETTINGS g1
        ∧ disk g2 = disk g1.
Proof.
  intros (cfg & profiles & current_data & new_data & dpi & n
          & Hg & Hp & Hc & Hcol & Hn & ->)%save_all_Returns_detail.
  set (final := dpi ∪ new_data).
  set (profiles1 := <[profile_var app := JObj final]> profiles).
  set (cfg1 := <["active_profile" := JStr (profile_var app)]>
                 (<["profiles" := JObj profiles1]> cfg)).
  assert (collect (rows app) ∅ (stored_dpi final) = Returns (new_data, dpi))
    as Hcol'.
  { destruct (collect_start _ _ _ _ _ Hcol) as [[Hd Hall]|Hall]; [|done].
    rewrite Hall. do 2 f_equal. subst final. rewrite Hd.
    unfold stored_dpi. rewrite !lookup_union.
    rewrite lookup_insert_eq.
    rewrite (lookup_insert_ne _ "dpi_fast" "dpi_normal") by done.
    rewrite lookup_insert_eq. by rewrite !union_Some_l. }
  assert (GLOBAL_CONFIG (saved writable (JObj cfg1) (JObj final) n g)
          = JObj cfg1) as Hg1 by (unfold saved; by destruct writable).
  rewrite (save_all_computes writable app _ cfg1 profiles1 final new_data dpi n
             Hg1);
    [|by subst cfg1; rewrite lookup_insert_ne, lookup_insert_eq
     |by subst profiles1; rewrite lookup_insert_eq
     |done|done].
  fold final.
  assert (<["active_profile" := JStr (profile_var app)]>
            (<["profiles" :=
                 JObj (<[profile_var app := JObj final]> profiles1)]> cfg1)
          = cfg1) as ->.
  { subst profiles1 cfg1. rewrite insert_insert_eq.
    apply map_eq. intros k. rewrite !lookup_insert.
    by repeat case_decide. }
  eexists. split; [done|]. unfold saved. by destruct writable.
Qed.

Lemma save_all_idempotent_witness :
  ∃ g1 g2, save_all true work_window work_globals = Returns g1
           ∧ save_all true work_window g1 = Returns g2
           ∧ GLOBAL_CONFIG g2 = GLOBAL_CONFIG g1.
Proof.
  destruct (save_all_idempotent true work_window work_globals _ eq_refl)
    as (g2 & H & Hc & _).
  by eexists _, g2.
Defined.

(** X17.  Deleting a profile when the configuration holds no "Mode A"
    (a config file written by hand): the deletion goes through and the
    window selects "Mode A", which is no key of the profiles; from then on
    [save_all], and with it [on_close], raises [KeyError] before anything
    is written, so the file still holds the deleted profile. *)
Theorem del_profile_then_close_raises app g
    (cfg profiles : gmap string json) :
  profile_var app ≠ "Mode A" →
  GLOBAL_CONFIG g = JObj cfg →
  cfg !! "profiles" = Some (JObj profiles) →
  is_Some (profiles !! profile_var app) →
  profiles !! "Mode A" = None →
  three_rows (rows app) →
  ∃ app' g',
    del_profile true app g = Returns (app', g')
    ∧ profile_var app' = "Mode A"
    ∧ disk g' = disk g
    ∧ ∀ writable, save_all writable app' g' = Raises KeyError
                  ∧ on_close writable app' g' = Raises KeyError.
Proof.
  intros Hname Hg Hp Hsel Hdef Hrows.
  destruct (load_rows_typed (rows app) (JObj DEFAULT_PROFILE) Hrows eq_refl)
    as (items & Hl & _).
  eexists _, _. split.
  { apply (del_profile_confirmed app g cfg profiles items); try done.
    by rewrite Hdef. }
  split; [done|]. split; [done|]. intros writable.
  assert (save_all writable {| profile_var := "Mode A"; rows := items |}
            (set_GLOBAL_CONFIG
               (JObj (<["active_profile" := JStr "Mode A"]>
                     (<["profiles" :=
                          JObj (delete (profile_var app) profiles)]> cfg)))
               g)
          = Raises KeyError) as H; [|done].
  unfold save_all. cbn.
  rewrite lookup_insert_ne by done. rewrite lookup_insert_eq. cbn.
  rewrite lookup_delete_ne by done. by rewrite Hdef.
Qed.

Lemma del_profile_then_close_raises_witness :
  ∃ app' g',
    del_profile true work_window
      (set_GLOBAL_CONFIG
         (JObj (<["profiles" := JObj (<["Work" := JObj work_profile]> ∅)]> ∅))
         work_globals)
    = Returns (app', g')
    ∧ on_close true app' g' = Raises KeyError.
Proof.
  destruct (del_profile_then_close_raises work_window
              (set_GLOBAL_CONFIG
                 (JObj (<["profiles" :=
                            JObj (<["Work" := JObj work_profile]> ∅)]> ∅))
                 work_globals)
              (<["profiles" := JObj (<["Work" := JObj work_profile]> ∅)]> ∅)
              (<["Work" := JObj work_profile]> ∅)
              ltac:(done) eq_refl eq_refl (ex_intro _ _ eq_refl) eq_refl
              ltac:(split; [reflexivity|by repeat constructor]))
    as (app' & g' & H & _ & _ & Hc).
  exists app', g'. split; [done|]. exact (proj2 (Hc true)).
Defined.

(** X18.  What a row gives back of a button config it was loaded with.
    The action comes back when it is one of the four the window knows, and
    as [key_press] otherwise; the parameter comes back for [open_url] and
    [key_press] and is emptied for the other two; DPI values are given
    only by a [toggle_dpi] row, and are those of the profile (18 and 10
    when missing). *)
Theorem row_round_trip row (o b : gmap string json)
    (action param : string) (fast normal : Z) :
  default (JObj ∅) (o !! button_key row) = JObj b →
  default (JStr "key_press") (b !! "action") = JStr action →
  default (JStr "") (b !! "param") = JStr param →
  default (JInt 18) (o !! "dpi_fast") = JInt fast →
  default (JInt 10) (o !! "dpi_normal") = JInt normal →
  ∃ row',
    load_data row (JObj o) = Returns row'
    ∧ get_ui_data row'
      = Returns
          (<["action" := JStr (shown_action action)]>
             (<["param" :=
                  JStr (if bool_decide (shown_action action
                                        ∈ ["open_url"; "key_press"])
                        then param else "")]> ∅),
           if bool_decide (shown_action action = "toggle_dpi")
           then Some (<["dpi_fast" := JInt fast]>
                      (<["dpi_normal" := JInt normal]> ∅))
           else None).
Proof.
  intros Hb Ha Hp Hf Hn. unfold load_data. cbn.
  rewrite Hb. cbn. rewrite Ha, Hp, Hf, Hn. cbn. eexists. split; [done|].
  unfold get_ui_data. cbn.
  destruct (decide (action = "voice_typing")) as [->|H1]; [done|].
  destruct (decide (action = "open_url")) as [->|H2]; [reflexivity|].
  destruct (decide (action = "key_press")) as [->|H3]; [reflexivity|].
  destruct (decide (action = "toggle_dpi")) as [->|H4]; [done|].
  assert (ACTION_MAP_INTERNAL !! action = None) as ->.
  { unfold ACTION_MAP_INTERNAL. by rewrite !lookup_insert_ne. }
  assert (shown_action action = "key_press") as ->.
  { unfold shown_action. rewrite bool_decide_eq_false_2; [done|].
    rewrite !elem_of_cons. intros [?|[?|[?|[?|?%elem_of_nil]]]]; done. }
  reflexivity.
Qed.

Lemma row_round_trip_witness :
  ∃ row',
    load_data (ButtonConfigRow_init "mic") (JObj work_profile) = Returns row'
    ∧ get_ui_data row'
      = Returns
          (<["action" := JStr "toggle_dpi"]> (<["param" := JStr ""]> ∅),
           Some (<["dpi_fast" := JInt 20]> (<["dpi_normal" := JInt 4]> ∅))).
Proof.
  exact (row_round_trip (ButtonConfigRow_init "mic") work_profile
           (<["action" := JStr "toggle_dpi"]> (<["param" := JStr ""]> ∅))
           "toggle_dpi" "" 20 4 eq_refl eq_refl eq_refl eq_refl eq_refl).
Defined.

(** ** Starting the program *)

(** X19.  [main] on a config file that holds a dictionary of profiles.
    When the file names the active profile, or the default name "Mode A"
    is not among the profiles (so that [load_config] stores the name), and
    the profile to show is well-typed, the window opens on that profile:
    the stored one, or the default profile where the name was missing from
    the profiles.  When the file has no "active_profile" member but does
    hold a profile "Mode A", [load_config] returns and creating the window
    raises [KeyError]. *)
Theorem main_on_config_file g (cfg profiles : gmap string json) :
  read_config g = JObj cfg →
  cfg !! "profiles" = Some (JObj profiles) →
  (∀ active : string,
     default (JStr "Mode A") (cfg !! "active_profile") = JStr active →
     is_Some (cfg !! "active_profile") ∨ profiles !! active = None →
     typed_profile (default (JObj DEFAULT_PROFILE) (profiles !! active))
     = true →
     ∃ app g',
       main g = Returns (app, g')
       ∧ profile_var app = active
       ∧ three_rows (rows app)
       ∧ ACTIVE_SETTINGS g'
         = default (JObj DEFAULT_PROFILE) (profiles !! active))
  ∧ (cfg !! "active_profile" = None → is_Some (profiles !! "Mode A") →
     main g = Raises KeyError).
Proof.
  intros Hr Hp. split.
  - intros active Ha Hkey Ht. unfold main.
    rewrite (load_config_dict g cfg profiles active Hr Hp Ha).
    destruct (load_rows_typed
                [("mic", ButtonConfigRow_init "mic");
                 ("search", ButtonConfigRow_init "search");
                 ("side", ButtonConfigRow_init "side")]
                (default (JObj DEFAULT_PROFILE) (profiles !! active))
                ltac:(split; [reflexivity|by repeat constructor]) Ht)
      as (items & Hl & Hitems).
    destruct (profiles !! active) as [settings|] eqn:E.
    + destruct Hkey as [[v Hv]|]; [|done].
      rewrite Hv in Ha. cbn in Ha. subst v.
      cbn. unfold MouseApp_init, load_profile_to_gui. cbn.
      rewrite Hv. cbn. rewrite Hp. cbn. rewrite E. cbn in Hl |- *.
      rewrite Hl. cbn. by eexists _, _.
    + cbn. unfold MouseApp_init, load_profile_to_gui. cbn.
      rewrite lookup_insert_eq. cbn.
      rewrite lookup_insert_ne by done. rewrite lookup_insert_eq. cbn.
      rewrite lookup_insert_eq. cbn in Hl |- *.
      rewrite Hl. cbn. by eexists _, _.
  - intros Hnone [settings Hs]. unfold main.
    rewrite (load_config_dict g cfg profiles "Mode A" Hr Hp);
      [|by rewrite Hnone].
    rewrite Hs. cbn. unfold MouseApp_init. cbn. by rewrite Hnone.
Qed.

Lemma main_on_config_file_witness :
  (∃ app g',
     main (startup None false (Document (JObj two_profiles)))
     = Returns (app, g')
     ∧ profile_var app = "Work")
  ∧ main (startup None false
            (Document (JObj (<["profiles" :=
                                 JObj (<["Mode A" := JObj DEFAULT_PROFILE]> ∅)]>
                               ∅))))
    = Raises KeyError.
Proof.
  split.
  - destruct (proj1 (main_on_config_file
                       (startup None false (Document (JObj two_profiles)))
                       two_profiles
                       (<["Mode A" := JObj DEFAULT_PROFILE]>
                          (<["Work" := JObj work_profile]> ∅))
                       eq_refl eq_refl)
                "Work" eq_refl (or_introl (ex_intro _ _ eq_refl)) eq_refl)
      as (app & g' & H & Hv & _).
    by exists app, g'.
  - exact (proj2 (main_on_config_file
                    (startup None false
                       (Document
                          (JObj (<["profiles" :=
                                     JObj (<["Mode A" := JObj DEFAULT_PROFILE]>
                                             ∅)]> ∅))))
                    (<["profiles" :=
                         JObj (<["Mode A" := JObj DEFAULT_PROFILE]> ∅)]> ∅)
                    (<["Mode A" := JObj DEFAULT_PROFILE]> ∅)
                    eq_refl eq_refl)
             eq_refl (ex_intro _ _ eq_refl)).
Defined.

(** ** Well-typed profiles through the window *)

Lemma load_data_known row data row' :
  load_data row data = Returns row' →
  is_Some (ACTION_MAP_DISPLAY !! action_var row').
Proof.
  unfold load_data. intros H.
  apply bind_Returns in H as (btn_data & _ & H).
  apply bind_Returns in H as (internal_action & _ & H).
  apply bind_Returns in H as (display_text & Hd & H).
  repeat (apply bind_Returns in H as (? & _ & H)).
  injection H as <-. cbn.
  destruct internal_action as [| | |s| |]; cbn in Hd; try done;
    injection Hd as <-; try by eexists.
  destruct (decide (s = "voice_typing")) as [->|H1]; [by eexists|].
  destruct (decide (s = "open_url")) as [->|H2]; [by eexists|].
  destruct (decide (s = "key_press")) as [->|H3]; [by eexists|].
  destruct (decide (s = "toggle_dpi")) as [->|H4]; [by eexists|].
  unfold ACTION_MAP_INTERNAL. rewrite !lookup_insert_ne by done.
  by eexists.
Qed.

Lemma load_rows_known items data items' :
  load_rows items data = Returns items' → shows_known items'.
Proof.
  revert items'. induction items as [|[k row] items IH]; intros items' H;
    cbn in H.
  { injection H as <-. constructor. }
  apply bind_Returns in H as (row' & Hr & H).
  apply bind_Returns in H as (rest & Hl & H). injection H as <-.
  constructor; [by eapply load_data_known|by apply IH].
Qed.

(** What a row that shows a known action yields. *)
Lemma get_ui_data_typed row data row_dpi :
  is_Some (ACTION_MAP_DISPLAY !! action_var row) →
  get_ui_data row = Returns (data, row_dpi) →
  typed_button (JObj data) = true
  ∧ ∀ d, row_dpi = Some d →
      ∃ fast normal, d = <["dpi_fast" := JInt fast]>
                           (<["dpi_normal" := JInt normal]> ∅).
Proof.
  intros [a Ha]. unfold get_ui_data. rewrite Ha. cbn.
  case_bool_decide.
  - destruct (IntVar_get (dpi_fast_var row)) as [f| |]; cbn; [|done..].
    destruct (IntVar_get (dpi_normal_var row)) as [n| |]; cbn; [|done..].
    intros [= <- <-]. split; [|intros d [= <-]; by eexists _, _].
    by destruct (_ || _).
  - intros [= <- <-]. split; [|done]. by destruct (_ || _).
Qed.

Lemma collect_typed items new_data dpi new_data' dpi' :
  shows_known items →
  collect items new_data dpi = Returns (new_data', dpi') →
  (∀ key v, new_data !! key = Some v → typed_button v = true) →
  (∃ fast normal, dpi = <["dpi_fast" := JInt fast]>
                          (<["dpi_normal" := JInt normal]> ∅)) →
  (∀ key v, new_data' !! key = Some v → typed_button v = true)
  ∧ ∃ fast normal, dpi' = <["dpi_fast" := JInt fast]>
                            (<["dpi_normal" := JInt normal]> ∅).
Proof.
  intros Hknown. revert new_data dpi.
  induction Hknown as [|[key row] items Hrow Hrows IH];
    intros new_data dpi; cbn.
  { by intros [= <- <-]. }
  intros H Hdata Hdpi.
  apply bind_Returns in H as ([btn_data row_dpi] & Hu & H).
  destruct (get_ui_data_typed row btn_data row_dpi Hrow Hu) as [Hb Hd].
  apply (IH _ _ H).
  - intros k v. rewrite lookup_insert. case_decide; [|by apply Hdata].
    by intros [= <-].
  - destruct row_dpi as [d|]; [|done].
    destruct (negb (bool_decide (d = ∅))); [by apply Hd|done].
Qed.

(** X20.  [save_all] stores a well-typed profile: with the three rows
    showing actions of the combo box (as they do once loaded) and integer
    DPI values in the profile stored so far under the selected name, the
    profile it stores, which becomes the active settings, has a string
    action and a string parameter for each of the three buttons and
    integer DPI values.  Rows that [load_data] has filled show actions of
    the combo box. *)
Theorem save_all_stores_typed_profile writable app g g'
    (cfg profiles current_data : gmap string json) :
  three_rows (rows app) → shows_known (rows app) →
  GLOBAL_CONFIG g = JObj cfg →
  cfg !! "profiles" = Some (JObj profiles) →
  profiles !! profile_var app = Some (JObj current_data) →
  is_integer (default (JInt 18) (current_data !! "dpi_fast")) = true →
  is_integer (default (JInt 10) (current_data !! "dpi_normal")) = true →
  save_all writable app g = Returns g' →
  typed_profile (ACTIVE_SETTINGS g') = true
  ∧ populated (ACTIVE_SETTINGS g') = true
  ∧ ∀ items data items',
      load_rows items data = Returns items' → shows_known items'.
Proof.
  intros [Hkeys _] Hknown Hg Hp Hc Hf Hn H.
  split; [|split; [|apply load_rows_known]].
  2:{ apply save_all_Returns in H
        as (? & ? & final & _ & _ & _ & Hk & _ & _ & _ & -> & _).
      rewrite Hkeys in Hk. cbn.
      rewrite !bool_decide_eq_true_2; [done|apply Hk..];
        rewrite !elem_of_cons; auto. }
  pose proof H as H'.
  apply save_all_Returns_detail in H
    as (cfg0 & profiles0 & cur0 & new_data & dpi & n
        & Hg0 & Hp0 & Hc0 & Hcol & _ & ->).
  rewrite Hg in Hg0. injection Hg0 as <-.
  rewrite Hp in Hp0. injection Hp0 as <-.
  rewrite Hc in Hc0. injection Hc0 as <-.
  destruct (collect_typed _ _ _ _ _ Hknown Hcol) as [Htyped (f & m & ->)].
  { intros key v. by rewrite lookup_empty. }
  { unfold stored_dpi.
    destruct (default (JInt 18) (current_data !! "dpi_fast")); try done.
    destruct (default (JInt 10) (current_data !! "dpi_normal")); try done.
    by eexists _, _. }
  apply collect_Returns in Hcol as [Hk _].
  assert (∀ key, key ∈ ["mic"; "search"; "side"] →
            typed_button
              (default (JObj ∅)
                 ((<["dpi_fast" := JInt f]> (<["dpi_normal" := JInt m]> ∅)
                   ∪ new_data) !! key)) = true) as Hbtn.
  { intros key Hin.
    destruct (Hk key) as [v Hv]; [left; by rewrite Hkeys|].
    rewrite lookup_union, Hv.
    rewrite !lookup_insert_ne, lookup_empty; cbn;
      [by eapply Htyped|..];
      rewrite !elem_of_cons in Hin;
      destruct Hin as [->|[->|[->|?%elem_of_nil]]]; done. }
  assert (typed_profile
            (JObj (<["dpi_fast" := JInt f]> (<["dpi_normal" := JInt m]> ∅)
                   ∪ new_data)) = true) as Hfinal.
  { cbn. rewrite !Hbtn by (rewrite !elem_of_cons; auto).
    rewrite !lookup_union, lookup_insert_eq.
    rewrite (lookup_insert_ne _ "dpi_fast" "dpi_normal") by done.
    rewrite lookup_insert_eq. by rewrite !union_Some_l. }
  unfold saved. by destruct writable.
Qed.

Lemma save_all_stores_typed_profile_witness :
  ∃ app g',
    load_profile_to_gui "Work" work_window work_globals = Returns app
    ∧ save_all true app work_globals = Returns g'
    ∧ typed_profile (ACTIVE_SETTINGS g') = true.
Proof.
  eexists _, _. split; [vm_compute; reflexivity|].
  match goal with |- save_all true ?a _ = _ ∧ _ => set (app := a) end.
  split; [vm_compute; reflexivity|].
  refine (proj1 (save_all_stores_typed_profile true app work_globals _
                   two_profiles
                   (<["Mode A" := JObj DEFAULT_PROFILE]>
                      (<["Work" := JObj work_profile]> ∅))
                   work_profile _ _ eq_refl eq_refl eq_refl eq_refl eq_refl
                   eq_refl)).
  - split; [reflexivity|by repeat constructor].
  - repeat constructor; by eexists.
Defined.
